(** * EGMS L3 data tool: tile grid download and CSV enrichment

    A shallow embedding of [egms_L3_web.py].  The program is a sequence of
    effects on a session state, a download directory, an output directory
    and two remote services; it is modelled in a state-and-exception monad
    over an explicit [world].  Whatever lies outside the program (the HTTP
    client, the zip reader, the projection library, the geocoder, Python's
    [float], the wall clock) enters as a field of the class [Env]. *)

From Stdlib Require Import ZArith QArith String Ascii List Lia Lqa DecimalString.
From stdpp Require Import base gmap strings list.

(** ** Python strings *)

Module PyStr.

(** [str(z)] for a Python [int], as an f-string renders it. *)
Definition str_Z (z : Z) : string := NilZero.string_of_int (Z.to_int z).

(** [c.lower()] on the ASCII range; the other code points are kept. *)
Definition lower_ascii (c : ascii) : ascii :=
  let k := nat_of_ascii c in
  if (65 <=? k)%nat && (k <=? 90)%nat then ascii_of_nat (k + 32) else c.

Fixpoint lower (s : string) : string :=
  match s with
  | EmptyString => EmptyString
  | String c s' => String (lower_ascii c) (lower s')
  end.

(** [s.endswith(suf)] *)
Fixpoint endswith (s suf : string) : bool :=
  if String.eqb s suf then true
  else match s with
       | EmptyString => false
       | String _ s' => endswith s' suf
       end.

(** [sub in s] *)
Fixpoint contains (sub s : string) : bool :=
  if String.prefix sub s then true
  else match s with
       | EmptyString => false
       | String _ s' => contains sub s'
       end.

(** [xs.index(x) if x in xs else None] *)
Fixpoint index_of (x : string) (xs : list string) : option nat :=
  match xs with
  | [] => None
  | y :: ys => if String.eqb y x then Some 0%nat else S <$> index_of x ys
  end.

End PyStr.

(** ** POSIX paths, as [os.path] computes them *)

Module PyPath.

Definition is_sep (c : ascii) : bool := Ascii.eqb c "/".
Definition is_dot (c : ascii) : bool := Ascii.eqb c ".".

Fixpoint has_sep (p : string) : bool :=
  match p with
  | EmptyString => false
  | String c p' => is_sep c || has_sep p'
  end.

(** [os.path.basename(p)]: what follows the last separator. *)
Fixpoint basename (p : string) : string :=
  match p with
  | EmptyString => EmptyString
  | String c p' =>
      if has_sep p' then basename p'
      else if is_sep c then p' else p
  end.

(** Split at the last dot: [(b[:k], b[k:])] with [k = b.rfind('.')]. *)
Fixpoint split_last_dot (b : string) : option (string * string) :=
  match b with
  | EmptyString => None
  | String c b' =>
      match split_last_dot b' with
      | Some (r, x) => Some (String c r, x)
      | None => if is_dot c then Some (EmptyString, b) else None
      end
  end.

Fixpoint all_dots (s : string) : bool :=
  match s with
  | EmptyString => true
  | String c s' => is_dot c && all_dots s'
  end.

(** [os.path.splitext(b)] for a name [b] without separator: the last dot
    splits the name unless only dots come before it. *)
Definition splitext (b : string) : string * string :=
  match split_last_dot b with
  | Some (r, x) => if all_dots r then (b, EmptyString) else (r, x)
  | None => (b, EmptyString)
  end.

(** [os.path.join(a, b)] *)
Definition join (a b : string) : string :=
  match b with
  | String "/" _ => b
  | _ => if (String.eqb a "" || PyStr.endswith a "/") then a +:+ b
         else a +:+ "/" +:+ b
  end.

(** [p.split('/')] *)
Fixpoint split (p : string) : list string :=
  match p with
  | EmptyString => [EmptyString]
  | String c p' =>
      if is_sep c then EmptyString :: split p'
      else match split p' with
           | part :: parts => String c part :: parts
           | [] => [String c EmptyString]
           end
  end.

(** Where [ZipFile.extract] puts the member [name] below [d]: the empty,
    [.] and [..] components of the name are dropped, the rest is joined to
    [d] and normalised. *)
Definition zip_target (d name : string) : string :=
  let kept := List.filter
                (λ x, negb (String.eqb x "" || String.eqb x "."
                            || String.eqb x ".."))
                (split name) in
  match kept with
  | [] => d
  | _ => join d (String.concat "/" kept)
  end.

End PyPath.

(** ** Configuration *)

Definition BASE_URL (e n : Z) (d year id : string) : string :=
  "https://egms.land.copernicus.eu/insar-api/archive/download/EGMS_L3_E"
    +:+ PyStr.str_Z e +:+ "N" +:+ PyStr.str_Z n +:+ "_100km_" +:+ d +:+ "_"
    +:+ year +:+ "_1.zip?id=" +:+ id.

Definition DOWNLOAD_BASE : string := "Point_downloads".
Definition NAMES_DATASETS_DIR : string := "Point_locations".
Definition DELAY : Q := 3.
(** The literal of [sleep(0.5)] in the enrichment loop. *)
Definition GEOCODE_DELAY : Q := 1 # 2.
Definition DEFAULT_YEAR : string := "2019_2023".
Definition DEFAULT_ID : string := "7ce01544f73b4a9780b56f9c96fe4de3".

(** ** Exceptions and messages *)

Inductive exn : Type :=
| StopIteration
| IndexError
| ZeroDivisionError
| ValueError (msg : string)
| StreamlitAPIException
| OSError (msg : string)
| LibraryError (msg : string).

(** How a call ends: with a value or with an exception. *)
Inductive outcome (A : Type) : Type :=
| Ret (a : A)
| Raise (e : exn).
Arguments Ret {A} a.
Arguments Raise {A} e.

(** The status and user-interface texts.  Each constructor is one f-string
    or literal of the program, with the values it interpolates. *)
Inductive message : Type :=
| Literal (s : string)
| ResponseFor (tile_code d : string) (status_code : Z)
| FailedToDownload (tile_code d : string)
| Extracted (name : string)
| NoMatchingCSV (tile_code d : string)
| ErrorDownloading (tile_code d : string) (e : exn)
| CouldNotInitializeTransformer
| ErrorConvertingCoordinates (e : exn)
| ErrorInGeocoding (e : exn)
| FileNotFound (input_file : string)
| RequiredColumnsNotFound (header : list string)
| FoundColumns (pid easting northing : string)
| ProcessingPoints (done total : Z)
| LocationDatasetSaved (output_file : string)
| ErrorProcessingCSV (e : exn)
| Traceback (e : exn)
| DownloadingTile (task_count total_tasks : Z)
| DownloadingCell (e n : Z) (d : string).

Inductive ui_event : Type :=
| StError (m : message)
| StWarning (m : message)
| StSuccess (m : message)
| Progress (value : Q) (text : message)
| StatusText (m : message).

(** A CSV file, as the rows [csv.reader] yields and [csv.writer] receives. *)
Abbreviation csv_rows := (list (list string)) (only parsing).

(** The body of an HTTP response, as [zipfile.ZipFile] sees it. *)
Inductive body : Type :=
| NotAZip (e : exn)
| Zip (namelist : list string) (member : string → csv_rows).

Record response : Type := { status_code : Z; content : body }.

(** What [geolocator.reverse] returns when it finds a place:
    [raw.get('address', {})] and [location.address]. *)
Record location : Type :=
  { raw_address : gmap string string; address : string }.

(** ** The environment *)

(** Everything the program calls but does not define. *)
Class Env : Type :=
  { (** The type of Python floats. *)
    float : Type;
    (** [float(s)]; [inl e] when it raises ([ValueError] on a non-numeric
        string). *)
    py_float : string → exn + float;
    (** What [pyproj.Transformer.from_crs] yields, kept by
        [st.cache_resource]: [None] when construction failed, else the
        [transform] method, which returns [(lon, lat)] or raises. *)
    pyproj_transformer : option (float → float → exn + float * float);
    (** [curl_requests.get(url, timeout=600)], for the request that follows
        [k] earlier calls to the network. *)
    curl_get : nat → string → exn + response;
    (** [geolocator.reverse((lat, lon), exactly_one=True)], likewise. *)
    nominatim_reverse : nat → float → float → exn + option location;
    (** Time that passes beyond the nominal duration of an operation begun
        at time [t]: the latency of a request, the overshoot of a [sleep]. *)
    lag : Q → Q }.

(** ** The program *)

Section Program.

Context `{Env}.

(** *** The world *)

Inductive call : Type :=
| ArchiveGet (url : string)
| GeocodeReverse (lat lon : float).

Record world : Type := mkWorld
  { now : Q;                         (* wall clock, seconds *)
    net_log : list (call * Q);       (* requests sent, with their start times *)
    download_status : message;       (* st.session_state.download_status *)
    enrich_status : message;         (* st.session_state.enrich_status *)
    total_tasks : Z;                 (* st.session_state.total_tasks *)
    dirs : gset string;              (* directories *)
    files : gmap string csv_rows;    (* regular files *)
    ui : list ui_event }.            (* what the dashboard was told, oldest first *)

Definition set_now (f : Q → Q) (w : world) : world :=
  mkWorld (f (now w)) (net_log w) (download_status w) (enrich_status w)
          (total_tasks w) (dirs w) (files w) (ui w).
Definition set_net_log (f : list (call * Q) → list (call * Q)) (w : world) : world :=
  mkWorld (now w) (f (net_log w)) (download_status w) (enrich_status w)
          (total_tasks w) (dirs w) (files w) (ui w).
Definition set_download_status (m : message) (w : world) : world :=
  mkWorld (now w) (net_log w) m (enrich_status w)
          (total_tasks w) (dirs w) (files w) (ui w).
Definition set_enrich_status (m : message) (w : world) : world :=
  mkWorld (now w) (net_log w) (download_status w) m
          (total_tasks w) (dirs w) (files w) (ui w).
Definition set_total_tasks (z : Z) (w : world) : world :=
  mkWorld (now w) (net_log w) (download_status w) (enrich_status w)
          z (dirs w) (files w) (ui w).
Definition set_dirs (f : gset string → gset string) (w : world) : world :=
  mkWorld (now w) (net_log w) (download_status w) (enrich_status w)
          (total_tasks w) (f (dirs w)) (files w) (ui w).
Definition set_files (f : gmap string csv_rows → gmap string csv_rows) (w : world) : world :=
  mkWorld (now w) (net_log w) (download_status w) (enrich_status w)
          (total_tasks w) (dirs w) (f (files w)) (ui w).
Definition set_ui (f : list ui_event → list ui_event) (w : world) : world :=
  mkWorld (now w) (net_log w) (download_status w) (enrich_status w)
          (total_tasks w) (dirs w) (files w) (f (ui w)).

(** *** State and exceptions *)

Definition M (A : Type) : Type := world → outcome A * world.

#[export] Instance M_ret : MRet M := λ A a w, (Ret a, w).
#[export] Instance M_bind : MBind M := λ A B f m w,
  match m w with
  | (Ret a, w') => f a w'
  | (Raise e, w') => (Raise e, w')
  end.

Definition raise {A : Type} (e : exn) : M A := λ w, (Raise e, w).

(** [try: m except Exception as e: h e] *)
Definition try_except {A : Type} (m : M A) (h : exn → M A) : M A := λ w,
  match m w with
  | (Ret a, w') => (Ret a, w')
  | (Raise e, w') => h e w'
  end.

Definition modify (f : world → world) : M unit := λ w, (Ret tt, f w).
Definition gets {A : Type} (f : world → A) : M A := λ w, (Ret (f w), w).

(** A value the environment returned or an exception it raised. *)
Definition of_sum {A : Type} (r : exn + A) : M A :=
  match r with
  | inl e => raise e
  | inr a => mret a
  end.

(** [for x in xs: s = body x s] *)
Fixpoint for_in {A S : Type} (xs : list A) (body : A → S → M S) (s : S) : M S :=
  match xs with
  | [] => mret s
  | x :: xs' => s' ← body x s; for_in xs' body s'
  end.

(** [range(lo, hi)] *)
Definition range (lo hi : Z) : list Z :=
  map (λ k, lo + Z.of_nat k)%Z (seq 0 (Z.to_nat (hi - lo))).

(** [xs[i]] for [i >= 0] *)
Definition getitem {A : Type} (xs : list A) (i : nat) : M A :=
  match xs !! i with
  | Some x => mret x
  | None => raise IndexError
  end.

(** [a / b] on Python ints *)
Definition py_div (a b : Z) : M Q :=
  if (b =? 0)%Z then raise ZeroDivisionError
  else mret (inject_Z a / inject_Z b)%Q.

(** *** Clock, network, dashboard, file system *)

(** [d] seconds pass, and whatever the environment adds. *)
Definition elapse (d : Q) : M unit :=
  modify (set_now (λ t, t + d + lag t)%Q).

Definition sleep (d : Q) : M unit := elapse d.

(** A request leaves now; the answer takes the environment's time. *)
Definition send (c : call) : M nat :=
  k ← gets (λ w, length (net_log w));
  t ← gets now;
  modify (set_net_log (λ l, l ++ [(c, t)]));;
  elapse 0;;
  mret k.

Definition st_error (m : message) : M unit := modify (set_ui (λ l, l ++ [StError m])).
Definition st_warning (m : message) : M unit := modify (set_ui (λ l, l ++ [StWarning m])).
Definition st_success (m : message) : M unit := modify (set_ui (λ l, l ++ [StSuccess m])).
Definition status_text (m : message) : M unit := modify (set_ui (λ l, l ++ [StatusText m])).

(** [progress_bar.progress(value, text=text)]: Streamlit refuses a value
    outside [0.0, 1.0]. *)
Definition progress_bar_progress (value : Q) (text : message) : M unit :=
  if Qle_bool 0 value && Qle_bool value 1
  then modify (set_ui (λ l, l ++ [Progress value text]))
  else raise StreamlitAPIException.

(** [os.path.exists(p)] *)
Definition path_exists (p : string) : M bool :=
  gets (λ w, bool_decide (is_Some (files w !! p)) || bool_decide (p ∈ dirs w)).

(** [os.makedirs(d, exist_ok=True)] *)
Definition makedirs (d : string) : M unit := modify (set_dirs (λ ds, {[d]} ∪ ds)).

(** [z.extract(name, path=d)]: one file written under [d]. *)
Definition zip_extract (member : string → csv_rows) (name d : string) : M unit :=
  modify (set_files (λ fs, <[PyPath.zip_target d name := member name]> fs)).

(** [open(p, 'r')] *)
Definition open_read (p : string) : M unit :=
  fs ← gets files;
  match fs !! p with
  | Some _ => mret tt
  | None => raise (OSError p)
  end.

(** [open(p, 'w', newline='')]: creates or truncates. *)
Definition open_write (p : string) : M unit :=
  modify (set_files (λ fs, <[p := []]> fs)).

(** The rows [csv.reader] finds in the file from its start. *)
Definition read_rows (p : string) : M csv_rows :=
  fs ← gets files;
  match fs !! p with
  | Some rows => mret rows
  | None => raise (OSError p)
  end.

(** [next(reader)] *)
Definition next_row (reader : csv_rows) : M (list string * csv_rows) :=
  match reader with
  | [] => raise StopIteration
  | row :: rest => mret (row, rest)
  end.

(** [writer.writerow(row)] on the file opened at [p] *)
Definition writerow (p : string) (row : list string) : M unit :=
  modify (set_files (λ fs, match fs !! p with
                           | Some rows => <[p := rows ++ [row]]> fs
                           | None => <[p := [row]]> fs
                           end)).

(** *** Coordinate transformer *)

Definition init_transformer : M (option (float → float → exn + float * float)) :=
  match pyproj_transformer with
  | Some t => mret (Some t)
  | None => st_warning CouldNotInitializeTransformer;; mret None
  end.

Definition convert_coordinates (easting northing : string)
    (transformer : option (float → float → exn + float * float))
  : M (option float * option float) :=
  transformer ←
    match transformer with
    | Some t => mret (Some t)
    | None => init_transformer
    end;
  match transformer with
  | None => mret (None, None)
  | Some t =>
      try_except
        (x ← of_sum (py_float easting);
         y ← of_sum (py_float northing);
         '(lon, lat) ← of_sum (t x y);
         mret (Some lat, Some lon))
        (λ e, st_error (ErrorConvertingCoordinates e);; mret (None, None))
  end.

(** *** Archive fetcher *)

(** [name.endswith(".csv") and filename_prefix in name] *)
Definition accepts (filename_prefix name : string) : bool :=
  PyStr.endswith name ".csv" && PyStr.contains filename_prefix name.

(** The scan of [z.namelist()]: [Some true] when the loop returns from the
    function, [None] when it runs to its end. *)
Fixpoint extract_first_match (filename_prefix : string) (member : string → csv_rows)
    (names : list string) : M (option bool) :=
  match names with
  | [] => mret None
  | name :: rest =>
      if accepts filename_prefix name
      then zip_extract member name DOWNLOAD_BASE;;
           modify (set_download_status (Extracted name));;
           mret (Some true)
      else extract_first_match filename_prefix member rest
  end.

(** [f"E{e}N{n}"] *)
Definition tile_code_of (e n : Z) : string :=
  "E" +:+ PyStr.str_Z e +:+ "N" +:+ PyStr.str_Z n.

(** [f"EGMS_L3_{tile_code}_100km_{d}_{year}_1"] *)
Definition filename_prefix_of (tile_code d year : string) : string :=
  "EGMS_L3_" +:+ tile_code +:+ "_100km_" +:+ d +:+ "_" +:+ year +:+ "_1".

Definition download_tile (e n : Z) (d year id : string) : M bool :=
  let tile_code := tile_code_of e n in
  let filename_prefix := filename_prefix_of tile_code d year in
  let url := BASE_URL e n d year id in
  try_except
    (k ← send (ArchiveGet url);
     response ← of_sum (curl_get k url);
     modify (set_download_status (ResponseFor tile_code d (status_code response)));;
     if negb (status_code response =? 200)%Z
     then modify (set_download_status (FailedToDownload tile_code d));;
          mret false
     else
       makedirs DOWNLOAD_BASE;;
       match content response with
       | NotAZip e' => raise e'
       | Zip namelist member =>
           r ← extract_first_match filename_prefix member namelist;
           match r with
           | Some b => mret b
           | None =>
               modify (set_download_status (NoMatchingCSV tile_code d));;
               mret false
           end
       end)
    (λ e', modify (set_download_status (ErrorDownloading tile_code d e'));;
           mret false).

(** *** Tile grid orchestrator: the batch branch of [main] *)

Definition displacements_of (disp_choice : string) : list string :=
  if String.eqb disp_choice "Both" then ["E"; "U"] else [disp_choice].

(** The three nested loops, [e] outermost and [d] innermost. *)
Definition for_grid {S : Type} (min_e max_e min_n max_n : Z)
    (displacements : list string) (body : Z → Z → string → S → M S) : S → M S :=
  for_in (range min_e (max_e + 1)) (λ e,
    for_in (range min_n (max_n + 1)) (λ n,
      for_in displacements (λ d, body e n d))).

(** The body of the innermost loop; [task_count] is carried along. *)
Definition batch_step (total : Z) (year id_value : string)
    (e n : Z) (d : string) (task_count : Z) : M Z :=
  let task_count := (task_count + 1)%Z in
  progress ← py_div task_count total;
  progress_bar_progress progress (DownloadingTile task_count total);;
  status_text (DownloadingCell e n d);;
  download_tile e n d year id_value;;
  st ← gets download_status;
  status_text st;;
  sleep DELAY;;
  mret task_count.

Definition batch_download (min_e max_e min_n max_n : Z)
    (disp_choice year id_value : string) : M unit :=
  let displacements := displacements_of disp_choice in
  let total := ((max_e - min_e + 1) * (max_n - min_n + 1)
                * Z.of_nat (length displacements))%Z in
  modify (set_total_tasks total);;
  progress_bar_progress 0 (Literal "Starting batch download...");;
  for_grid min_e max_e min_n max_n displacements
    (batch_step total year id_value) 0%Z;;
  progress_bar_progress 1 (Literal "Batch download complete!").

(** *** Location resolver *)

Definition get_location_name (latitude longitude : option float) : M string :=
  match latitude, longitude with
  | Some lat, Some lon =>
      try_except
        (k ← send (GeocodeReverse lat lon);
         found ← of_sum (nominatim_reverse k lat lon);
         match found with
         | Some loc =>
             let addr := raw_address loc in
             let city :=
               default (default (default "" (addr !! "village"))
                                (addr !! "town"))
                       (addr !! "city") in
             let country := default "" (addr !! "country") in
             if negb (String.eqb city "") && negb (String.eqb country "")
             then mret (city +:+ ", " +:+ country)
             else mret (address loc)
         | None => mret "Unknown location"
         end)
        (λ e, st_warning (ErrorInGeocoding e);; mret "Geocoding error")
  | _, _ => mret "Unknown location"
  end.

(** *** CSV enrichment pipeline *)

(** [enumerate(xs)], counting from [i]. *)
Fixpoint enumerate_from {A : Type} (i : nat) (xs : list A) : list (nat * A) :=
  match xs with
  | [] => []
  | x :: xs' => (i, x) :: enumerate_from (S i) xs'
  end.

(** The indices of [pid], [easting] and [northing] in the header, matched
    in lower case; [None] stands for Python's [None]. *)
Definition find_columns (header : list string)
  : option nat * option nat * option nat :=
  let header_lower := map PyStr.lower header in
  (PyStr.index_of "pid" header_lower,
   PyStr.index_of "easting" header_lower,
   PyStr.index_of "northing" header_lower).

Definition output_path (input_file : string) : string :=
  let base_filename := fst (PyPath.splitext (PyPath.basename input_file)) in
  PyPath.join NAMES_DATASETS_DIR (base_filename +:+ "_locations.csv").

(** The body of the loop over the data rows. *)
Definition enrich_row (output_file : string)
    (transformer : option (float → float → exn + float * float))
    (pid_idx easting_idx northing_idx : nat) (total_rows : nat)
    (i : nat) (row : list string) : M unit :=
  easting ← getitem row easting_idx;
  northing ← getitem row northing_idx;
  '(lat, lon) ← convert_coordinates easting northing transformer;
  place ← get_location_name lat lon;
  sleep GEOCODE_DELAY;;
  c1 ← getitem row pid_idx;
  c2 ← getitem row easting_idx;
  c3 ← getitem row northing_idx;
  writerow output_file [c1; c2; c3; place];;
  progress ← py_div (Z.of_nat i + 1) (Z.of_nat total_rows);
  progress_bar_progress progress
    (ProcessingPoints (Z.of_nat i + 1) (Z.of_nat total_rows)).

(** The header row of the output. *)
Definition output_header : list string :=
  ["point_id"; "easting"; "northing"; "location"].

(** The body of the [try] block. *)
Definition enrich_try (input_file output_file : string)
    (transformer : option (float → float → exn + float * float))
  : M (option string) :=
  open_read input_file;;
  open_write output_file;;
  reader ← read_rows input_file;
  '(header, reader) ← next_row reader;
  match find_columns header with
  | (Some pid_idx, Some easting_idx, Some northing_idx) =>
      c1 ← getitem header pid_idx;
      c2 ← getitem header easting_idx;
      c3 ← getitem header northing_idx;
      modify (set_enrich_status (FoundColumns c1 c2 c3));;
      writerow output_file output_header;;
      let rows := reader in
      let total_rows := length rows in
      (* infile.seek(0); next(reader) *)
      reader ← read_rows input_file;
      next_row reader;;
      for_in (enumerate_from 0 rows)
        (λ '(i, row) _,
           enrich_row output_file transformer
             pid_idx easting_idx northing_idx total_rows i row)
        tt;;
      st_success (LocationDatasetSaved output_file);;
      mret (Some output_file)
  | _ =>
      st_error (RequiredColumnsNotFound header);;
      mret None
  end.

Definition enrich_dataset_with_locations (input_file : string)
  : M (option string) :=
  found ← path_exists input_file;
  if negb found
  then st_error (FileNotFound input_file);; mret None
  else
    makedirs NAMES_DATASETS_DIR;;
    let output_file := output_path input_file in
    transformer ← init_transformer;
    match transformer with
    | None => st_warning (Literal "Using approximate coordinate conversion")
    | Some _ => mret tt
    end;;
    try_except
      (enrich_try input_file output_file transformer)
      (λ e, st_error (ErrorProcessingCSV e);;
            st_error (Traceback e);;
            mret None).

(** *** The single-tile branch of [main] *)

(** The body of the loop over [enumerate(displacements)]. *)
Definition single_step (len : nat) (year id_value : string)
    (e_coord n_coord : Z) (i : nat) (d : string) : M unit :=
  progress ← py_div (Z.of_nat i) (Z.of_nat len);
  progress_bar_progress progress
    (Literal ("Downloading " +:+ d +:+ " displacement data..."));;
  status_text (DownloadingCell e_coord n_coord d);;
  download_tile e_coord n_coord d year id_value;;
  sleep DELAY;;
  st ← gets download_status;
  status_text st.

Definition single_tile_download (e_coord n_coord : Z)
    (disp_choice year id_value : string) : M unit :=
  let displacements := displacements_of disp_choice in
  progress_bar_progress 0 (Literal "Starting download...");;
  for_in (enumerate_from 0 displacements)
    (λ '(i, d) _,
       single_step (length displacements) year id_value e_coord n_coord i d)
    tt;;
  progress_bar_progress 1 (Literal "Download complete!").

(** *** Notions the properties are stated with *)

(** The tasks of a region in the order the three loops reach them. *)
Definition grid_tasks (min_e max_e min_n max_n : Z) (displacements : list string)
  : list (Z * Z * string) :=
  flat_map (λ e,
    flat_map (λ n, map (λ d, (e, n, d)) displacements)
             (range min_n (max_n + 1)))
    (range min_e (max_e + 1)).

(** The first archive entry the fetcher accepts. *)
Definition first_match (filename_prefix : string) (names : list string)
  : option string :=
  List.find (accepts filename_prefix) names.

Definition is_archive (c : call) : bool :=
  match c with ArchiveGet _ => true | GeocodeReverse _ _ => false end.
Definition is_geocode (c : call) : bool :=
  match c with ArchiveGet _ => false | GeocodeReverse _ _ => true end.

(** The start times of the requests to one service, oldest first. *)
Definition call_times (service : call → bool) (w : world) : list Q :=
  map snd (List.filter (λ x, service (fst x)) (net_log w)).

(** Successive times are at least [D] apart. *)
Definition spaced (D : Q) (ts : list Q) : Prop :=
  ∀ i a b, ts !! i = Some a → ts !! S i = Some b → (a + D <= b)%Q.

(** At time [t] the last of [ts] lies [D] or more in the past. *)
Definition rested (D : Q) (ts : list Q) (t : Q) : Prop :=
  ∀ a, last ts = Some a → (a + D <= t)%Q.

(** Calls to one service are paced in [w]: spaced in the past, and the last
    one far enough behind for the next to leave now. *)
Definition paced (D : Q) (service : call → bool) (w : world) : Prop :=
  spaced D (call_times service w) ∧ rested D (call_times service w) (now w).

(** The progress fractions the dashboard was given, oldest first. *)
Definition progress_values (events : list ui_event) : list Q :=
  omap (λ ev, match ev with Progress v _ => Some v | _ => None end) events.

(** A data row that has the three fields the header resolved. *)
Definition wide (pid_idx easting_idx northing_idx : nat) (row : list string) : Prop :=
  (pid_idx < length row ∧ easting_idx < length row ∧ northing_idx < length row)%nat.

(** [float(s)] raises. *)
Definition non_numeric (s : string) : Prop := ∃ e, py_float s = inl e.

(** [orow] is what the pipeline writes for [row]: its three fields in the
    output order and a place, which is [Unknown location] when a coordinate
    is not a number. *)
Definition enriches (pid_idx easting_idx northing_idx : nat)
    (row orow : list string) : Prop :=
  ∃ c1 c2 c3 place,
    row !! pid_idx = Some c1 ∧ row !! easting_idx = Some c2
    ∧ row !! northing_idx = Some c3
    ∧ orow = [c1; c2; c3; place]
    ∧ (non_numeric c2 ∨ non_numeric c3 → place = "Unknown location").

(** The clock and the network across one data row: no request and one
    pause, or one request to the geocoder followed by the pause. *)
Definition row_timing (w w' : world) : Prop :=
  (net_log w' = net_log w
   ∧ now w' = (now w + GEOCODE_DELAY + lag (now w))%Q)
  ∨ (∃ la lo,
       net_log w' = net_log w ++ [(GeocodeReverse la lo, now w)]
       ∧ now w' = (let t := now w + 0 + lag (now w) in
                   t + GEOCODE_DELAY + lag t)%Q).

(** What the conversion yields as [(lat, lon)], with the transformer that
    [convert_coordinates] ends up using: the one passed in, else the cached
    one. *)
Definition transform_result
    (transformer : option (float → float → exn + float * float))
    (easting northing : string) : option (float * float) :=
  match (match transformer with
         | Some t => Some t
         | None => pyproj_transformer
         end) with
  | None => None
  | Some t =>
      match py_float easting, py_float northing with
      | inr x, inr y =>
          match t x y with
          | inr (lon, lat) => Some (lat, lon)
          | inl _ => None
          end
      | _, _ => None
      end
  end.


(** [w'] differs from [w] at most in what the dashboard was told, and the
    progress bar was not moved. *)
Definition only_messages (w w' : world) : Prop :=
  files w' = files w ∧ dirs w' = dirs w ∧ net_log w' = net_log w
  ∧ now w' = now w ∧ progress_values (ui w') = progress_values (ui w).


End Program.

(** ** A concrete environment *)

(** An environment and a few worlds on which the program can be run: the
    archive answers per tile, the geocoder always finds Vienna, [float]
    reads two literals, and no operation takes longer than its nominal
    time. *)
Module Example.

Definition read_float (s : string) : exn + Z :=
  if String.eqb s "4321000.0" then inr 4321000%Z
  else if String.eqb s "3210000.0" then inr 3210000%Z
  else inl (ValueError "could not convert string to float").

Definition archive : body :=
  Zip ["readme.txt";
       "EGMS_L3_E10N25_100km_E_2019_2023_1.csv";
       "copy/EGMS_L3_E10N25_100km_E_2019_2023_1.csv"]
      (λ name, [["pid"; "easting"; "northing"]; [name; "4321000.0"; "3210000.0"]]).

Definition fetch (k : nat) (url : string) : exn + response :=
  if String.eqb url (BASE_URL 10 25 "E" DEFAULT_YEAR DEFAULT_ID)
  then inr {| status_code := 200; content := archive |}
  else if String.eqb url (BASE_URL 10 25 "U" DEFAULT_YEAR DEFAULT_ID)
  then inl (LibraryError "Connection timed out")
  else if String.eqb url (BASE_URL 10 26 "E" DEFAULT_YEAR DEFAULT_ID)
  then inr {| status_code := 404; content := NotAZip (LibraryError "BadZipFile") |}
  else if String.eqb url (BASE_URL 10 26 "U" DEFAULT_YEAR DEFAULT_ID)
  then inr {| status_code := 200; content := NotAZip (LibraryError "BadZipFile") |}
  else inr {| status_code := 200; content := Zip ["readme.txt"] (λ _, []) |}.

Definition vienna : location :=
  {| raw_address := {[ "city" := "Wien"; "country" := "Austria" ]};
     address := "Wien, Austria" |}.

Definition reverse (k : nat) (lat lon : Z) : exn + option location :=
  if Nat.even k then inr (Some vienna) else inl (LibraryError "Read timed out").

Definition env : Env :=
  {| float := Z;
     py_float := read_float;
     pyproj_transformer := Some (λ x y, inr (x, y));
     curl_get := fetch;
     nominatim_reverse := reverse;
     lag := λ _, 0%Q |}.

Definition dataset : string := "Point_downloads/a.csv".

(** A world at time zero with one file under the download directory. *)
Definition world_with (rows : list (list string)) : @world env :=
  mkWorld 0 [] (Literal "") (Literal "") 0 {[DOWNLOAD_BASE]} {[dataset := rows]} [].

Definition fresh : @world env := world_with [].

(** The scenario of the specification, with a second row whose easting
    is not a number. *)
Definition good_rows : list (list string) :=
  [["A1"; "4321000.0"; "3210000.0"; "ignored"]; ["A2"; "abc"; "1"; "x"]].
Definition good : @world env :=
  world_with (["PID"; "Easting"; "Northing"; "extra"] :: good_rows).






End Example.

(** ** Properties *)

Section Properties.

Context `{Env}.

(** Unfolds the monad and the primitive effects. *)
Ltac run :=
  cbv beta iota zeta delta
    [mbind M_bind mret M_ret modify gets raise of_sum try_except
     send elapse sleep makedirs st_error st_warning st_success status_text
     zip_extract open_read open_write read_rows next_row writerow getitem
     path_exists].

(** Reads a field of an updated world. *)
Tactic Notation "proj" "in" hyp(H) :=
  cbn [files now net_log ui dirs download_status enrich_status total_tasks
       set_files set_now set_net_log set_ui set_dirs set_download_status
       set_enrich_status set_total_tasks] in H.
Tactic Notation "proj" :=
  cbn [files now net_log ui dirs download_status enrich_status total_tasks
       set_files set_now set_net_log set_ui set_dirs set_download_status
       set_enrich_status set_total_tasks].

(** *** Loops *)

Lemma for_in_app {A S : Type} (xs ys : list A) (body : A → S → M S) s w :
  for_in (xs ++ ys) body s w = (s' ← for_in xs body s; for_in ys body s') w.
Proof.
  revert s w. induction xs as [|x xs IH]; intros s w; simpl.
  - reflexivity.
  - unfold mbind, M_bind. destruct (body x s w) as [[s'|e] w']; [|reflexivity].
    rewrite IH. reflexivity.
Qed.

Lemma for_in_ext {A S : Type} (xs : list A) (f g : A → S → M S) :
  (∀ x s w, f x s w = g x s w) → ∀ s w, for_in xs f s w = for_in xs g s w.
Proof.
  intros Hfg. induction xs as [|x xs IH]; intros s w; simpl; [reflexivity|].
  unfold mbind, M_bind. rewrite Hfg.
  destruct (g x s w) as [[s'|e] w']; [apply IH|reflexivity].
Qed.

Lemma for_in_map {A B S : Type} (g : A → B) (xs : list A) (body : B → S → M S) s w :
  for_in (map g xs) body s w = for_in xs (λ x, body (g x)) s w.
Proof.
  revert s w. induction xs as [|x xs IH]; intros s w; simpl; [reflexivity|].
  unfold mbind, M_bind.
  destruct (body (g x) s w) as [[s'|e] w']; [apply IH|reflexivity].
Qed.

Lemma for_in_flat_map {A B S : Type} (g : A → list B) (xs : list A)
    (body : B → S → M S) s w :
  for_in (flat_map g xs) body s w = for_in xs (λ x, for_in (g x) body) s w.
Proof.
  revert s w. induction xs as [|x xs IH]; intros s w; simpl; [reflexivity|].
  rewrite for_in_app. unfold mbind, M_bind.
  destruct (for_in (g x) body s w) as [[s'|e] w']; [apply IH|reflexivity].
Qed.

(** The three loops run the body over [grid_tasks], in that order. *)
Lemma for_grid_tasks {S : Type} min_e max_e min_n max_n ds
    (body : Z → Z → string → S → M S) s w :
  for_grid min_e max_e min_n max_n ds body s w
  = for_in (grid_tasks min_e max_e min_n max_n ds)
           (λ '(e, n, d), body e n d) s w.
Proof.
  unfold for_grid, grid_tasks. rewrite for_in_flat_map.
  apply for_in_ext. intros e s1 w1. rewrite for_in_flat_map.
  apply for_in_ext. intros n s2 w2. rewrite for_in_map. reflexivity.
Qed.

(** *** Ranges *)

Lemma length_range lo hi : length (range lo hi) = Z.to_nat (hi - lo).
Proof. unfold range. rewrite length_map, length_seq. reflexivity. Qed.




(** *** Lists of blocks of one length *)


Lemma length_flat_map_block {A B : Type} (g : A → list B) (m : nat) (xs : list A) :
  (∀ x, x ∈ xs → length (g x) = m) →
  length (flat_map g xs) = (length xs * m)%nat.
Proof.
  intros Hlen. apply flat_map_constant_length.
  intros x Hx. apply Hlen. by apply list_elem_of_In.
Qed.


(** *** Grid enumeration *)

Lemma NoDup_displacements_of disp_choice : NoDup (displacements_of disp_choice).
Proof.
  unfold displacements_of. destruct (String.eqb disp_choice "Both").
  - apply NoDup_cons. split; [|apply NoDup_singleton].
    intros Hin. apply list_elem_of_singleton in Hin. discriminate.
  - apply NoDup_singleton.
Qed.

Lemma displacements_of_nonempty disp_choice : displacements_of disp_choice ≠ [].
Proof. unfold displacements_of. by destruct (String.eqb disp_choice "Both"). Qed.


Lemma length_grid_row (min_n max_n : Z) (ds : list string) (e : Z) :
  length (flat_map (λ n, map (λ d, (e, n, d)) ds) (range min_n (max_n + 1)))
  = (Z.to_nat (max_n - min_n + 1) * length ds)%nat.
Proof.
  rewrite (length_flat_map_block _ (length ds)).
  - rewrite length_range. f_equal. lia.
  - intros n _. apply length_map.
Qed.

Lemma length_grid_tasks min_e max_e min_n max_n ds :
  length (grid_tasks min_e max_e min_n max_n ds)
  = (Z.to_nat (max_e - min_e + 1) * (Z.to_nat (max_n - min_n + 1) * length ds))%nat.
Proof.
  unfold grid_tasks.
  rewrite (length_flat_map_block _ (Z.to_nat (max_n - min_n + 1) * length ds)).
  - rewrite length_range. f_equal. lia.
  - intros e _. apply length_grid_row.
Qed.




(** *** Archive fetcher *)

Lemma extract_first_match_eq filename_prefix member names w :
  extract_first_match filename_prefix member names w
  = match first_match filename_prefix names with
    | Some name =>
        (Ret (Some true),
         set_download_status (Extracted name)
           (set_files (λ fs, <[PyPath.zip_target DOWNLOAD_BASE name := member name]> fs) w))
    | None => (Ret None, w)
    end.
Proof.
  unfold first_match. induction names as [|name rest IH]; simpl; [reflexivity|].
  destruct (accepts filename_prefix name); [reflexivity|exact IH].
Qed.



(** What one fetch does, case by case. *)
Lemma download_tile_eq e n d year id w :
  let tile_code := tile_code_of e n in
  let filename_prefix := filename_prefix_of tile_code d year in
  let url := BASE_URL e n d year id in
  let w1 := set_now (λ t, t + 0 + lag t)%Q
              (set_net_log (λ l, l ++ [(ArchiveGet url, now w)]) w) in
  download_tile e n d year id w
  = match curl_get (length (net_log w)) url with
    | inl ex => (Ret false, set_download_status (ErrorDownloading tile_code d ex) w1)
    | inr resp =>
        let w2 := set_download_status
                    (ResponseFor tile_code d (status_code resp)) w1 in
        if negb (status_code resp =? 200)%Z
        then (Ret false, set_download_status (FailedToDownload tile_code d) w2)
        else
          let w3 := set_dirs (λ ds, {[DOWNLOAD_BASE]} ∪ ds) w2 in
          match content resp with
          | NotAZip ex =>
              (Ret false, set_download_status (ErrorDownloading tile_code d ex) w3)
          | Zip names member =>
              match first_match filename_prefix names with
              | Some name =>
                  (Ret true,
                   set_download_status (Extracted name)
                     (set_files
                        (λ fs, <[PyPath.zip_target DOWNLOAD_BASE name := member name]> fs)
                        w3))
              | None =>
                  (Ret false, set_download_status (NoMatchingCSV tile_code d) w3)
              end
          end
    end.
Proof.
  intros tile_code filename_prefix url w1.
  unfold download_tile. fold tile_code filename_prefix url. run.
  destruct (curl_get (length (net_log w)) url) as [ex|resp]; [reflexivity|].
  run.
  destruct (negb (status_code resp =? 200)%Z); [reflexivity|].
  destruct (content resp) as [ex|names member]; [reflexivity|].
  rewrite extract_first_match_eq.
  destruct (first_match filename_prefix names); reflexivity.
Qed.

(** One fetch sends one request, at the current time, and tells the
    dashboard nothing. *)
Lemma download_tile_frame e n d year id w :
  ∃ b w', download_tile e n d year id w = (Ret b, w')
          ∧ net_log w' = net_log w ++ [(ArchiveGet (BASE_URL e n d year id), now w)]
          ∧ now w' = (now w + 0 + lag (now w))%Q
          ∧ ui w' = ui w.
Proof.
  rewrite download_tile_eq. cbv zeta.
  repeat case_match; eexists _, _; (split; [reflexivity|]); by simpl.
Qed.

(** C5.  A fetch never raises: for every tile, displacement, year range,
    credential and world, and whatever the network, the archive reader and
    the file system answer, [download_tile] returns a boolean.  When the
    request itself fails (timeout, DNS, connection reset) the result is
    [False], the status left behind is the message of the failure, and no
    file has changed. *)
Theorem download_tile_never_raises (e n : Z) (d year id : string) (w : world) :
  ∃ b w',
    download_tile e n d year id w = (Ret b, w')
    ∧ ∀ ex, curl_get (length (net_log w)) (BASE_URL e n d year id) = inl ex →
            b = false
            ∧ download_status w' = ErrorDownloading (tile_code_of e n) d ex
            ∧ files w' = files w.
Proof.
  rewrite download_tile_eq. cbv zeta.
  destruct (curl_get (length (net_log w)) (BASE_URL e n d year id)) as [ex|resp].
  - eexists _, _. split; [reflexivity|]. intros ? [= <-]. by simpl.
  - repeat case_match; eexists _, _; (split; [reflexivity|]); discriminate.
Qed.


(** *** Progress fractions *)

Lemma py_div_ok (a b : Z) w :
  b ≠ 0%Z → py_div a b w = (Ret (inject_Z a / inject_Z b)%Q, w).
Proof. intros Hb. unfold py_div. apply Z.eqb_neq in Hb. by rewrite Hb. Qed.

Lemma fraction_in_range (a b : Z) :
  (0 < a ≤ b)%Z →
  Qle_bool 0 (inject_Z a / inject_Z b) && Qle_bool (inject_Z a / inject_Z b) 1 = true.
Proof.
  intros [Ha Hab].
  assert (0 < inject_Z b)%Q as Hb by (rewrite <- (Zlt_Qlt 0); lia).
  apply andb_true_intro. split; apply Qle_bool_iff.
  - apply Qle_shift_div_l; [exact Hb|]. rewrite Qmult_0_l.
    rewrite <- (Zle_Qle 0). lia.
  - apply Qle_shift_div_r; [exact Hb|]. rewrite Qmult_1_l.
    rewrite <- Zle_Qle. lia.
Qed.

Lemma progress_ok (v : Q) text w :
  Qle_bool 0 v && Qle_bool v 1 = true →
  progress_bar_progress v text w
  = (Ret tt, set_ui (λ l, l ++ [Progress v text]) w).
Proof. intros Hv. unfold progress_bar_progress. by rewrite Hv. Qed.

Lemma progress_values_app l1 l2 :
  progress_values (l1 ++ l2) = progress_values l1 ++ progress_values l2.
Proof. apply omap_app. Qed.

(** *** Pacing *)

Lemma spaced_snoc D ts t : spaced D ts → rested D ts t → spaced D (ts ++ [t]).
Proof.
  intros Hsp Hre i a b Ha Hb.
  destruct (decide (S i < length ts)%nat) as [Hlt|Hge].
  - rewrite lookup_app_l in Ha, Hb by lia. eauto.
  - assert (S i = length ts) as Hi.
    { apply lookup_lt_Some in Hb. rewrite length_app in Hb. simpl in Hb. lia. }
    rewrite lookup_app_l in Ha by lia.
    rewrite lookup_app_r, Hi, Nat.sub_diag in Hb by lia. injection Hb as <-.
    apply Hre. rewrite last_lookup, <- Hi. exact Ha.
Qed.

Lemma rested_snoc D ts t t' : (t + D <= t')%Q → rested D (ts ++ [t]) t'.
Proof. intros Ht a. rewrite last_snoc. by intros [= <-]. Qed.

Lemma rested_later D ts t t' : rested D ts t → (t <= t')%Q → rested D ts t'.
Proof. intros Hre Ht a Ha. specialize (Hre a Ha). lra. Qed.

Lemma call_times_snoc service w w' c t :
  net_log w' = net_log w ++ [(c, t)] →
  call_times service w'
  = call_times service w ++ (if service c then [t] else []).
Proof.
  intros Hlog. unfold call_times. rewrite Hlog, List.filter_app, map_app. simpl.
  by destruct (service c).
Qed.

Lemma paced_call D service w w' c :
  paced D service w → net_log w' = net_log w ++ [(c, now w)] →
  (now w + D <= now w')%Q → (0 <= D)%Q → paced D service w'.
Proof.
  intros [Hsp Hre] Hlog Hnow HD. unfold paced.
  rewrite (call_times_snoc _ _ _ _ _ Hlog). destruct (service c).
  - split; [by apply spaced_snoc|by apply rested_snoc].
  - rewrite app_nil_r. split; [done|]. eapply rested_later; [done|lra].
Qed.

Lemma paced_idle D service w w' :
  paced D service w → net_log w' = net_log w → (now w <= now w')%Q →
  paced D service w'.
Proof.
  intros [Hsp Hre] Hlog Hnow. unfold paced, call_times in *. rewrite Hlog.
  split; [done|]. by eapply rested_later.
Qed.

(** Between the [i]-th call and the [n]-th after it, [n] intervals pass. *)
Lemma spaced_span D ts :
  spaced D ts → ∀ (n i : nat) a b,
  ts !! i = Some a → ts !! (i + n)%nat = Some b →
  (a + inject_Z (Z.of_nat n) * D <= b)%Q.
Proof.
  intros Hsp. induction n as [|n IH]; intros i a b Ha Hb.
  - rewrite Nat.add_0_r, Ha in Hb. injection Hb as <-.
    change (inject_Z (Z.of_nat 0)) with 0%Q. lra.
  - assert (is_Some (ts !! (i + n)%nat)) as [m Hm].
    { apply lookup_lt_is_Some. apply lookup_lt_Some in Hb. lia. }
    specialize (IH i a m Ha Hm).
    replace (i + S n)%nat with (S (i + n)) in Hb by lia.
    specialize (Hsp _ _ _ Hm Hb).
    rewrite Nat2Z.inj_succ, <- Z.add_1_r, inject_Z_plus.
    change (inject_Z 1) with 1%Q. nra.
Qed.

(** *** Tile grid orchestrator *)

Lemma batch_step_spec total year id e n d c w :
  (0 ≤ c < total)%Z →
  ∃ w', batch_step total year id e n d c w = (Ret (c + 1)%Z, w')
        ∧ net_log w' = net_log w ++ [(ArchiveGet (BASE_URL e n d year id), now w)]
        ∧ now w' = (let t := now w + 0 + lag (now w) in t + DELAY + lag t)%Q
        ∧ progress_values (ui w')
          = progress_values (ui w) ++ [(inject_Z (c + 1) / inject_Z total)%Q].
Proof.
  intros Hc. unfold batch_step. run.
  rewrite py_div_ok by lia.
  rewrite progress_ok by (apply fraction_in_range; lia).
  match goal with
  | |- context [download_tile e n d year id ?w0] =>
      destruct (download_tile_frame e n d year id w0) as (b & w1 & -> & Hlog & Hnow & Hui)
  end.
  eexists. split; [reflexivity|]. simpl in *. split_and!.
  - exact Hlog.
  - by rewrite Hnow.
  - rewrite Hui, !progress_values_app. simpl. by rewrite !app_nil_r.
Qed.

Lemma batch_step_paced total year id e n d c w :
  (∀ t, 0 <= lag t)%Q → (0 ≤ c < total)%Z →
  paced DELAY is_archive w →
  paced DELAY is_archive (batch_step total year id e n d c w).2.
Proof.
  intros Hlag Hc Hw.
  destruct (batch_step_spec total year id e n d c w Hc) as (w' & -> & Hlog & Hnow & _).
  simpl. eapply paced_call; [exact Hw|exact Hlog| |done].
  rewrite Hnow. cbv zeta.
  pose proof (Hlag (now w)).
  pose proof (Hlag (now w + 0 + lag (now w))%Q). lra.
Qed.

Lemma batch_loop_spec total year id ts :
  ∀ c w, (0 ≤ c)%Z → (ts ≠ [] → c + Z.of_nat (length ts) ≤ total)%Z →
  ∃ w', for_in ts (λ '(e, n, d), batch_step total year id e n d) c w
        = (Ret (c + Z.of_nat (length ts))%Z, w')
        ∧ map fst (net_log w')
          = map fst (net_log w)
            ++ map (λ '(e, n, d), ArchiveGet (BASE_URL e n d year id)) ts
        ∧ progress_values (ui w')
          = progress_values (ui w)
            ++ map (λ k, inject_Z (c + 1 + Z.of_nat k) / inject_Z total)%Q
                   (seq 0 (length ts))
        ∧ ((∀ t, 0 <= lag t)%Q → paced DELAY is_archive w →
           paced DELAY is_archive w').
Proof.
  induction ts as [|[[e n] d] ts IH]; intros c w Hc Htot.
  - exists w. simpl. rewrite Z.add_0_r, !app_nil_r. by split_and!.
  - specialize (Htot ltac:(done)).
    simpl length in *. simpl for_in. unfold mbind at 1, M_bind at 1.
    pose proof (batch_step_paced total year id e n d c w) as Hpaced.
    destruct (batch_step_spec total year id e n d c w) as (w1 & Hstep & Hlog & _ & Hui);
      [lia|].
    rewrite Hstep in *. simpl in Hpaced.
    destruct (IH (c + 1)%Z w1) as (w' & -> & Hlog' & Hui' & Hpaced'); [lia..|].
    exists w'. split_and!.
    + f_equal. f_equal. lia.
    + rewrite Hlog', Hlog, map_app. simpl. by rewrite <- app_assoc.
    + rewrite Hui', Hui, <- app_assoc. f_equal. simpl. f_equal.
      * by rewrite Z.add_0_r.
      * rewrite <- seq_shift, map_map. apply map_ext. intros k.
        do 2 f_equal. lia.
    + intros Hlag Hw. apply Hpaced'; [done|]. apply Hpaced; [done|lia|done].
Qed.

(** C4.  A batch download never stops early.  Whatever the region, the
    selection and the answers of the network, [batch_download] returns
    normally, it has sent one request per task of the grid, in the order
    of the grid and whether or not earlier ones failed, and the progress
    fractions it emitted are [0], then [k / total] for the [k]-th task, then
    [1]: the last fraction emitted is exactly [1]. *)
Theorem batch_download_runs_to_the_end
    (min_e max_e min_n max_n : Z) (disp_choice year id_value : string) (w : world) :
  let ts := grid_tasks min_e max_e min_n max_n (displacements_of disp_choice) in
  let total := ((max_e - min_e + 1) * (max_n - min_n + 1)
                * Z.of_nat (length (displacements_of disp_choice)))%Z in
  ∃ w',
    batch_download min_e max_e min_n max_n disp_choice year id_value w = (Ret tt, w')
    ∧ map fst (net_log w')
      = map fst (net_log w)
        ++ map (λ '(e, n, d), ArchiveGet (BASE_URL e n d year id_value)) ts
    ∧ progress_values (ui w')
      = progress_values (ui w) ++ [0%Q]
        ++ map (λ k, inject_Z (1 + Z.of_nat k) / inject_Z total)%Q
               (seq 0 (length ts))
        ++ [1%Q]
    ∧ last (ui w') = Some (Progress 1 (Literal "Batch download complete!")).
Proof.
  intros ts total. unfold batch_download. fold total. run.
  rewrite progress_ok by reflexivity.
  rewrite for_grid_tasks. fold ts.
  match goal with
  | |- context [for_in ts _ 0%Z ?w0] =>
      destruct (batch_loop_spec total year id_value ts 0%Z w0)
        as (w1 & -> & Hlog & Hui & _)
  end; [lia| |].
  { intros Hne. assert (length ts ≠ 0%nat) as Hlen by (by destruct ts).
    unfold ts, total in *. rewrite length_grid_tasks in *.
    assert (0 < max_e - min_e + 1)%Z
      by (destruct (Z.to_nat (max_e - min_e + 1)) eqn:E; [done|lia]).
    assert (0 < max_n - min_n + 1)%Z
      by (destruct (Z.to_nat (max_n - min_n + 1)) eqn:E; [lia|lia]).
    rewrite !Nat2Z.inj_mul, !Z2Nat.id by lia. lia. }
  rewrite progress_ok by reflexivity.
  eexists. split; [reflexivity|]. simpl in *. split_and!.
  - exact Hlog.
  - rewrite progress_values_app, Hui, progress_values_app. simpl.
    rewrite <- !app_assoc. simpl. do 2 f_equal.
  - apply last_snoc.
Qed.

(** *** Location resolver *)

Lemma get_location_name_frame lat lon w :
  ∃ s w', get_location_name lat lon w = (Ret s, w')
          ∧ files w' = files w
          ∧ (lat = None ∨ lon = None → s = "Unknown location" ∧ w' = w)
          ∧ (net_log w' = net_log w ∧ now w' = now w
             ∨ ∃ la lo, net_log w' = net_log w ++ [(GeocodeReverse la lo, now w)]
                        ∧ now w' = (now w + 0 + lag (now w))%Q).
Proof.
  unfold get_location_name.
  destruct lat as [la|], lon as [lo|];
    try (eexists _, _; split_and!; [reflexivity|reflexivity|done|by left]).
  run. destruct (nominatim_reverse (length (net_log w)) la lo) as [ex|[loc|]];
    run; try destruct (negb _ && negb _);
    (eexists _, _; split_and!;
     [reflexivity|reflexivity|by intros [|]|right; by exists la, lo]).
Qed.

(** C7.  The location resolver never raises.  It returns a string for
    every pair of coordinates and every world; when either coordinate is
    undefined the string is [Unknown location] and the world is untouched
    (no request was sent); when the geocoder raises, the string is
    [Geocoding error]. *)
Theorem get_location_name_never_raises (lat lon : option float) (w : world) :
  ∃ s w',
    get_location_name lat lon w = (Ret s, w')
    ∧ (lat = None ∨ lon = None → s = "Unknown location" ∧ w' = w)
    ∧ (∀ la lo ex,
         lat = Some la → lon = Some lo →
         nominatim_reverse (length (net_log w)) la lo = inl ex →
         s = "Geocoding error").
Proof.
  unfold get_location_name.
  destruct lat as [la|], lon as [lo|];
    try (eexists _, _; split_and!; [reflexivity|done|discriminate]).
  run. destruct (nominatim_reverse (length (net_log w)) la lo) as [ex|[loc|]] eqn:Hrev;
    run; try destruct (negb _ && negb _);
    (eexists _, _; split_and!;
     [reflexivity|by intros [|]|intros ??? [= <-] [= <-]; congruence]).
Qed.

(** *** Coordinate transformer *)

Lemma convert_coordinates_frame easting northing transformer w :
  ∃ lat lon w',
    convert_coordinates easting northing transformer w = (Ret (lat, lon), w')
    ∧ files w' = files w ∧ net_log w' = net_log w ∧ now w' = now w
    ∧ (non_numeric easting ∨ non_numeric northing → lat = None ∧ lon = None).
Proof.
  unfold convert_coordinates, init_transformer, non_numeric.
  destruct transformer as [t|]; [|destruct pyproj_transformer as [t|]]; run.
  3: { eexists _, _, _. by split_and!. }
  all: destruct (py_float easting) as [e1|x]; run;
    [eexists _, _, _; by split_and!|];
    destruct (py_float northing) as [e2|y]; run;
    [eexists _, _, _; by split_and!|];
    destruct (t x y) as [e3|[lo la]]; run;
    (eexists _, _, _; split_and!; [reflexivity|done..|]);
    intros [[? [=]]|[? [=]]].
Qed.

(** *** One data row *)

Lemma row_timing_paced w w' :
  (∀ t, 0 <= lag t)%Q → row_timing w w' →
  paced GEOCODE_DELAY is_geocode w → paced GEOCODE_DELAY is_geocode w'.
Proof.
  intros Hlag [[Hlog Hnow]|(la & lo & Hlog & Hnow)] Hw.
  - eapply paced_idle; [done..|]. rewrite Hnow.
    pose proof (Hlag (now w)). unfold GEOCODE_DELAY. lra.
  - eapply paced_call; [done..| |done]. rewrite Hnow. cbv zeta.
    pose proof (Hlag (now w)).
    pose proof (Hlag (now w + 0 + lag (now w))%Q). lra.
Qed.

Lemma not_wide_cases p e n (row : list string) :
  ¬ wide p e n row ↔ row !! p = None ∨ row !! e = None ∨ row !! n = None.
Proof.
  unfold wide. rewrite !lookup_ge_None. lia.
Qed.

Lemma enrich_row_spec out tr p e n total i row w :
  ∃ r w',
    enrich_row out tr p e n total i row w = (r, w')
    ∧ ((¬ wide p e n row ∧ r = Raise IndexError ∧ files w' = files w
        ∧ (w' = w ∨ row_timing w w'))
       ∨ (wide p e n row ∧ row_timing w w'
          ∧ ∃ orow, enriches p e n row orow
                    ∧ files w' = <[out := default [] (files w !! out) ++ [orow]]> (files w)
                    ∧ ((i < total)%nat → r = Ret tt))).
Proof.
  unfold enrich_row. run.
  destruct (row !! e) as [c2|] eqn:He.
  2: { eexists _, _. split; [reflexivity|]. left.
       split_and!; [apply not_wide_cases; auto|done..|by left]. }
  destruct (row !! n) as [c3|] eqn:Hn.
  2: { eexists _, _. split; [reflexivity|]. left.
       split_and!; [apply not_wide_cases; auto|done..|by left]. }
  destruct (convert_coordinates_frame c2 c3 tr w)
    as (lat & lon & w1 & -> & Hf1 & Hl1 & Hn1 & Hnum).
  destruct (get_location_name_frame lat lon w1)
    as (place & w2 & -> & Hf2 & Hunk & Htime).
  assert (row_timing w (set_now (λ t, t + GEOCODE_DELAY + lag t)%Q w2)) as Hrt.
  { destruct Htime as [[Hl2 Hn2]|(la & lo & Hl2 & Hn2)]; [left|right].
    - simpl. by rewrite Hl2, Hl1, Hn2, Hn1.
    - exists la, lo. simpl. by rewrite Hl2, Hl1, Hn2, Hn1. }
  destruct (row !! p) as [c1|] eqn:Hp.
  2: { eexists _, _. split; [reflexivity|]. left.
       split_and!; [apply not_wide_cases; auto|done|simpl; congruence|by right]. }
  assert (wide p e n row) as Hwide.
  { unfold wide. split_and!; by eapply lookup_lt_Some. }
  match goal with
  | |- ∃ r w', (let (o, w'0) := py_div ?a ?b ?w0 in _) = _ ∧ _ =>
      destruct (decide (i < total)%nat) as [Hi|Hi];
      [rewrite py_div_ok by lia;
       rewrite progress_ok by (apply fraction_in_range; lia)
      |destruct (py_div a b w0) as [[v|ex] w3] eqn:Hdiv;
       [assert (w3 = w0) as -> by
          (unfold py_div in Hdiv; destruct (b =? 0)%Z; by injection Hdiv);
        unfold progress_bar_progress;
        destruct (Qle_bool 0 v && Qle_bool v 1)
       |assert (w3 = w0) as -> by
          (unfold py_div in Hdiv; destruct (b =? 0)%Z; by injection Hdiv)]]
  end.
  all: eexists _, _; (split; [reflexivity|]); right;
    (split; [exact Hwide|]); (split; [exact Hrt|]);
    exists [c1; c2; c3; place];
    (split; [exists c1, c2, c3, place; split_and!; try done;
             intros Hnn; by destruct (Hunk (or_introl (proj1 (Hnum Hnn))))|]);
    (split; [|done]);
    simpl; rewrite <- Hf1, <- Hf2; by destruct (files w2 !! out).
Qed.

(** *** The output path is never the input path *)








(** *** The loop over the data rows *)


Lemma enrich_loop_paced out tr p e n total rows :
  (∀ t, 0 <= lag t)%Q →
  ∀ i0 w, paced GEOCODE_DELAY is_geocode w →
  paced GEOCODE_DELAY is_geocode
    (for_in (enumerate_from i0 rows)
       (λ '(i, row) _, enrich_row out tr p e n total i row) tt w).2.
Proof.
  intros Hlag. induction rows as [|row rows IH]; intros i0 w Hw; [done|].
  simpl for_in. unfold mbind at 1, M_bind at 1.
  destruct (enrich_row_spec out tr p e n total i0 row w)
    as (r & w1 & -> & Hcases).
  assert (paced GEOCODE_DELAY is_geocode w1) as Hw1.
  { destruct Hcases as [(_ & _ & _ & [->|Hrt])|(_ & Hrt & _)];
      [done|by eapply row_timing_paced..]. }
  destruct r as [[]|ex]; [by apply IH|done].
Qed.

(** *** Header lookup *)




(** *** The body of the [try] block *)



Lemma paced_quiet D service w w' :
  net_log w' = net_log w → now w' = now w →
  paced D service w → paced D service w'.
Proof.
  intros Hlog Hnow Hw. eapply paced_idle; [done..|]. rewrite Hnow. lra.
Qed.

Lemma enrich_try_paced input out tr w :
  (∀ t, 0 <= lag t)%Q →
  paced GEOCODE_DELAY is_geocode w →
  paced GEOCODE_DELAY is_geocode (enrich_try input out tr w).2.
Proof.
  intros Hlag Hw.
  pose proof (λ p e n total rows, enrich_loop_paced out tr p e n total rows Hlag 0%nat)
    as Hloop.
  unfold enrich_try. run.
  repeat case_match; simplify_eq; proj;
    try (eapply paced_quiet; [..|exact Hw]; reflexivity).
  all: match goal with
       | Heq : for_in (enumerate_from 0 ?rows)
                 (λ '(i, row) _, enrich_row _ _ ?p ?e ?n ?total i row) tt ?w0
               = (_, ?w2) |- _ =>
           let Hp := fresh in
           pose proof (Hloop p e n total rows w0) as Hp;
           rewrite Heq in Hp;
           (eapply paced_quiet; [..|apply Hp]; [reflexivity..|]);
           eapply paced_quiet; [..|exact Hw]; reflexivity
       end.
Qed.

(** *** The whole pipeline *)


Lemma enrich_paced input w :
  (∀ t, 0 <= lag t)%Q →
  paced GEOCODE_DELAY is_geocode w →
  paced GEOCODE_DELAY is_geocode (enrich_dataset_with_locations input w).2.
Proof.
  intros Hlag Hw.
  pose proof (λ tr w0, enrich_try_paced input (output_path input) tr w0 Hlag) as Htry.
  unfold enrich_dataset_with_locations, init_transformer. run.
  destruct (negb _); [by eapply paced_quiet; [..|exact Hw]|].
  destruct pyproj_transformer as [t|]; run.
  all: match goal with
       | |- context [enrich_try ?inp ?out ?tr ?w0] =>
           specialize (Htry tr w0 ltac:(by eapply paced_quiet; [..|exact Hw]));
           destruct (enrich_try inp out tr w0) as [[r|ex] w2]
       end; [done|by eapply paced_quiet; [..|exact Htry]..].
Qed.

Lemma batch_download_paced min_e max_e min_n max_n disp_choice year id_value w :
  (∀ t, 0 <= lag t)%Q →
  paced DELAY is_archive w →
  paced DELAY is_archive
    (batch_download min_e max_e min_n max_n disp_choice year id_value w).2.
Proof.
  intros Hlag Hw. unfold batch_download. run.
  rewrite progress_ok by reflexivity. rewrite for_grid_tasks.
  match goal with
  | |- context [for_in ?ts _ 0%Z ?w0] =>
      destruct (decide (ts = [])) as [Hnil|Hne];
      [rewrite Hnil; simpl for_in; run
      |destruct (batch_loop_spec
                   ((max_e - min_e + 1) * (max_n - min_n + 1)
                    * Z.of_nat (length (displacements_of disp_choice)))%Z
                   year id_value ts 0%Z w0) as (w1 & -> & _ & _ & Hp)]
  end.
  - rewrite progress_ok by reflexivity.
    by eapply paced_quiet; [..|exact Hw].
  - lia.
  - intros _. assert (length (grid_tasks min_e max_e min_n max_n
                                (displacements_of disp_choice)) ≠ 0%nat) as Hlen
      by (by destruct (grid_tasks _ _ _ _ _)).
    rewrite length_grid_tasks in *.
    assert (0 < max_e - min_e + 1)%Z
      by (destruct (Z.to_nat (max_e - min_e + 1)) eqn:E; [done|lia]).
    assert (0 < max_n - min_n + 1)%Z
      by (destruct (Z.to_nat (max_n - min_n + 1)) eqn:E; [lia|lia]).
    rewrite !Nat2Z.inj_mul, !Z2Nat.id by lia. lia.
  - rewrite progress_ok by reflexivity.
    eapply paced_quiet; [..|apply Hp]; [done..| |]; [done|].
    by eapply paced_quiet; [..|exact Hw].
Qed.








(** C9.  With a clock on which no operation takes negative time: the
    pause after a geocoder request is shorter than the pause after an
    archive request; a batch download keeps the archive requests paced, so
    that between any request and the [n]-th after it at least [n] times
    [DELAY] seconds pass; and an enrichment run does the same for the
    geocoder requests with its own pause.  ([N] consecutive calls span
    [n = N - 1] intervals.) *)
Theorem calls_are_paced :
  (∀ t, 0 <= lag t)%Q →
  (GEOCODE_DELAY < DELAY)%Q
  ∧ (∀ min_e max_e min_n max_n disp_choice year id_value w,
       paced DELAY is_archive w →
       let w' := (batch_download min_e max_e min_n max_n
                    disp_choice year id_value w).2 in
       paced DELAY is_archive w'
       ∧ ∀ (i n : nat) a b,
           call_times is_archive w' !! i = Some a →
           call_times is_archive w' !! (i + n)%nat = Some b →
           (a + inject_Z (Z.of_nat n) * DELAY <= b)%Q)
  ∧ (∀ input w,
       paced GEOCODE_DELAY is_geocode w →
       let w' := (enrich_dataset_with_locations input w).2 in
       paced GEOCODE_DELAY is_geocode w'
       ∧ ∀ (i n : nat) a b,
           call_times is_geocode w' !! i = Some a →
           call_times is_geocode w' !! (i + n)%nat = Some b →
           (a + inject_Z (Z.of_nat n) * GEOCODE_DELAY <= b)%Q).
Proof.
  intros Hlag. split_and!.
  - reflexivity.
  - intros min_e max_e min_n max_n disp_choice year id_value w Hw w'.
    assert (paced DELAY is_archive w') as Hw'
      by (by apply batch_download_paced).
    split; [done|]. intros i n a b. apply spaced_span, Hw'.
  - intros input w Hw w'.
    assert (paced GEOCODE_DELAY is_geocode w') as Hw'
      by (by apply enrich_paced).
    split; [done|]. intros i n a b. apply spaced_span, Hw'.
Qed.

(** ** Further properties of the code *)

(** *** Coordinate transformer *)

Lemma only_messages_refl w : only_messages w w.
Proof. by unfold only_messages. Qed.

Lemma only_messages_trans w1 w2 w3 :
  only_messages w1 w2 → only_messages w2 w3 → only_messages w1 w3.
Proof.
  unfold only_messages. intros (?&?&?&?&?) (?&?&?&?&?).
  split_and!; congruence.
Qed.

Lemma only_messages_said w (ev : ui_event) :
  (∀ v text, ev ≠ Progress v text) →
  only_messages w (set_ui (λ l, l ++ [ev]) w).
Proof.
  intros Hev. unfold only_messages. proj. split_and!; [done..|].
  rewrite progress_values_app. destruct ev; simpl; rewrite ?app_nil_r; try done.
  by destruct (Hev value text).
Qed.

Lemma convert_coordinates_eq easting northing tr w :
  ∃ w',
    convert_coordinates easting northing tr w
    = (Ret match transform_result tr easting northing with
           | Some (lat, lon) => (Some lat, Some lon)
           | None => (None, None)
           end, w')
    ∧ only_messages w w'
    ∧ (is_Some (transform_result tr easting northing) → w' = w).
Proof.
  unfold convert_coordinates, init_transformer, transform_result.
  destruct tr as [t|]; [|destruct pyproj_transformer as [t|]]; run.
  3: { eexists. split; [reflexivity|]. split; [|by intros [? [=]]].
       by apply only_messages_said. }
  all: destruct (py_float easting) as [e1|x]; run;
    [eexists; split; [reflexivity|];
     split; [by apply only_messages_said|by intros [? [=]]]|];
    destruct (py_float northing) as [e2|y]; run;
    [eexists; split; [reflexivity|];
     split; [by apply only_messages_said|by intros [? [=]]]|];
    destruct (t x y) as [e3|[lo la]]; run;
    [eexists; split; [reflexivity|];
     split; [by apply only_messages_said|by intros [? [=]]]|];
    eexists; split; [reflexivity|]; split; [apply only_messages_refl|done].
Qed.

(** The conversion never raises and returns both coordinates or neither:
    [(lat, lon)], the pair of the transformer swapped, when a transformer is
    at hand, [float] reads both fields and the transformer succeeds, and in
    that case the world is untouched; [(None, None)] in every other case.
    It changes nothing but the messages on the dashboard. *)
Theorem convert_coordinates_never_raises (easting northing : string)
    (tr : option (float → float → exn + float * float)) (w : world) :
  let eff := match tr with Some t => Some t | None => pyproj_transformer end in
  ∃ r w',
    convert_coordinates easting northing tr w = (Ret r, w')
    ∧ only_messages w w'
    ∧ (r = (None, None) ∨ ∃ lat lon, r = (Some lat, Some lon))
    ∧ (∀ t x y lon lat,
         eff = Some t → py_float easting = inr x → py_float northing = inr y →
         t x y = inr (lon, lat) → r = (Some lat, Some lon) ∧ w' = w)
    ∧ (eff = None ∨ (∃ ex, py_float easting = inl ex)
       ∨ (∃ ex, py_float northing = inl ex)
       ∨ (∃ t x y ex, eff = Some t ∧ py_float easting = inr x
                      ∧ py_float northing = inr y ∧ t x y = inl ex) →
       r = (None, None)).
Proof.
  intros eff.
  destruct (convert_coordinates_eq easting northing tr w) as (w' & -> & Hmsg & Hsame).
  eexists _, w'. split; [reflexivity|]. split; [exact Hmsg|].
  unfold transform_result in *. fold eff in Hsame |- *. split_and!.
  - repeat case_match; eauto.
  - intros t x y lon lat -> Hx Hy Ht. rewrite Hx, Hy, Ht in *.
    split; [done|]. apply Hsame. by eexists.
  - intros [->|[[ex Hx]|[[ex Hy]|(t & x & y & ex & -> & Hx & Hy & Ht)]]];
      [done|destruct eff; [by rewrite Hx|done]
      |destruct eff; [rewrite Hy; by destruct (py_float easting)|done]
      |by rewrite Hx, Hy, Ht].
Qed.

(** *** Location resolver *)


(** With both coordinates defined the resolver sends exactly one request.
    When the geocoder finds nothing the label is [Unknown location].  When
    it finds a place, the label is [name, country], [name] being the value
    under [city] if that key is present, else under [town], else under
    [village], provided name and country are both non-empty; it is the
    full address of the place in every other case, also when [city] is
    present but empty and a town is given. *)
Theorem get_location_name_label (la lo : float) (w : world) :
  ∃ s w',
    get_location_name (Some la) (Some lo) w = (Ret s, w')
    ∧ net_log w' = net_log w ++ [(GeocodeReverse la lo, now w)]
    ∧ (nominatim_reverse (length (net_log w)) la lo = inr None →
       s = "Unknown location")
    ∧ ∀ loc, nominatim_reverse (length (net_log w)) la lo = inr (Some loc) →
        let addr := raw_address loc in
        (∀ c k, addr !! "city" = Some c → addr !! "country" = Some k →
                c ≠ "" → k ≠ "" → s = c +:+ ", " +:+ k)
        ∧ (∀ t k, addr !! "city" = None → addr !! "town" = Some t →
                  addr !! "country" = Some k →
                  t ≠ "" → k ≠ "" → s = t +:+ ", " +:+ k)
        ∧ (∀ v k, addr !! "city" = None → addr !! "town" = None →
                  addr !! "village" = Some v → addr !! "country" = Some k →
                  v ≠ "" → k ≠ "" → s = v +:+ ", " +:+ k)
        ∧ (addr !! "city" = Some "" → s = address loc)
        ∧ (addr !! "country" = None ∨ addr !! "country" = Some "" →
           s = address loc)
        ∧ (addr !! "city" = None → addr !! "town" = None →
           addr !! "village" = None → s = address loc).
Proof.
  unfold get_location_name. run.
  destruct (nominatim_reverse (length (net_log w)) la lo) as [ex|[loc|]] eqn:Hrev; run.
  - eexists _, _. split; [reflexivity|]. by split_and!.
  - set (city := default (default (default "" (raw_address loc !! "village"))
                                  (raw_address loc !! "town"))
                         (raw_address loc !! "city")).
    set (country := default "" (raw_address loc !! "country")).
    assert (∀ x : string, x ≠ "" → negb (String.eqb x "") = true) as Hne
      by (intros x Hx; by destruct (String.eqb_spec x "")).
    destruct (negb (String.eqb city "") && negb (String.eqb country "")) eqn:Hboth;
      (eexists _, _; split; [reflexivity|]; split; [done|]; split; [done|]);
      intros loc' [= <-]; cbv zeta; subst city country.
    + split_and!.
      * by intros c k -> -> _ _.
      * by intros t k -> -> -> _ _.
      * by intros v k -> -> -> -> _ _.
      * intros Hc. by rewrite Hc in Hboth.
      * intros [Hk|Hk]; rewrite Hk in Hboth; simpl in Hboth;
          by rewrite andb_false_r in Hboth.
      * intros Hc Ht Hv. by rewrite Hc, Ht, Hv in Hboth.
    + split_and!; try done.
      * intros c k Hc Hk Hcne Hkne. rewrite Hc, Hk in Hboth. simpl in Hboth.
        by rewrite !Hne in Hboth.
      * intros t k Hc Ht Hk Htne Hkne. rewrite Hc, Ht, Hk in Hboth.
        simpl in Hboth. by rewrite !Hne in Hboth.
      * intros v k Hc Ht Hv Hk Hvne Hkne. rewrite Hc, Ht, Hv, Hk in Hboth.
        simpl in Hboth. by rewrite !Hne in Hboth.
  - eexists _, _. split; [reflexivity|]. by split_and!.
Qed.

(** *** Archive fetcher *)


(** *** Names of archive entries *)

Lemma prefix_app p b : String.prefix p (p +:+ b) = true.
Proof.
  induction p as [|c p IH]; [by destruct b|].
  change (String c p +:+ b) with (String c (p +:+ b)). simpl.
  destruct (ascii_dec c c); [exact IH|done].
Qed.

Lemma prefix_inv p s : String.prefix p s = true → ∃ b, s = p +:+ b.
Proof.
  revert s. induction p as [|c p IH]; intros s.
  - intros _. by exists s.
  - destruct s as [|c' s]; [done|]. simpl.
    destruct (ascii_dec c c') as [<-|]; [|discriminate].
    intros [b ->]%IH. by exists b.
Qed.

Lemma contains_unfold sub s :
  PyStr.contains sub s
  = if String.prefix sub s then true
    else match s with
         | EmptyString => false
         | String _ s' => PyStr.contains sub s'
         end.
Proof. by destruct s. Qed.

Lemma endswith_unfold s suf :
  PyStr.endswith s suf
  = if String.eqb s suf then true
    else match s with
         | EmptyString => false
         | String _ s' => PyStr.endswith s' suf
         end.
Proof. by destruct s. Qed.

Lemma contains_iff sub s :
  PyStr.contains sub s = true ↔ ∃ a b, s = a +:+ sub +:+ b.
Proof.
  split.
  - induction s as [|c s IH]; rewrite contains_unfold;
      destruct (String.prefix _ _) eqn:Hp.
    + intros _. apply prefix_inv in Hp as [b Hb]. by exists "", b.
    + discriminate.
    + intros _. apply prefix_inv in Hp as [b Hb]. by exists "", b.
    + intros (a & b & ->)%IH. by exists (String c a), b.
  - intros (a & b & ->). induction a as [|c a IH]; rewrite contains_unfold.
    + change ("" +:+ sub +:+ b) with (sub +:+ b). by rewrite prefix_app.
    + change (String c a +:+ sub +:+ b) with (String c (a +:+ sub +:+ b)).
      destruct (String.prefix _ _); [done|exact IH].
Qed.

Lemma endswith_iff s suf :
  PyStr.endswith s suf = true ↔ ∃ a, s = a +:+ suf.
Proof.
  split.
  - induction s as [|c s IH]; rewrite endswith_unfold.
    + destruct (String.eqb_spec "" suf) as [<-|]; [by exists ""|discriminate].
    + destruct (String.eqb_spec (String c s) suf) as [<-|]; [by exists ""|].
      intros [a ->]%IH. by exists (String c a).
  - intros [a ->]. induction a as [|c a IH]; rewrite endswith_unfold.
    + change ("" +:+ suf) with suf. by rewrite String.eqb_refl.
    + change (String c a +:+ suf) with (String c (a +:+ suf)).
      destruct (String.eqb _ _); [done|exact IH].
Qed.

Lemma string_app_assoc (a b c : string) : (a +:+ b) +:+ c = a +:+ b +:+ c.
Proof.
  induction a as [|x a IH]; [done|].
  change (String x ((a +:+ b) +:+ c) = String x (a +:+ b +:+ c)). by rewrite IH.
Qed.

(** An archive entry is accepted exactly when its name ends in [.csv] and
    has the filename fragment of the task somewhere in it; so the entry
    named after the fragment is accepted, alone or below a folder.  The URL
    requested is the endpoint followed by that same fragment, [.zip?id=]
    and the credential. *)
Theorem accepted_entry_names (e n : Z) (d year id name : string) :
  let fragment := filename_prefix_of (tile_code_of e n) d year in
  (accepts fragment name = true
   ↔ (∃ a, name = a +:+ ".csv") ∧ (∃ a b, name = a +:+ fragment +:+ b))
  ∧ (∀ folder, accepts fragment (folder +:+ fragment +:+ ".csv") = true)
  ∧ BASE_URL e n d year id
    = "https://egms.land.copernicus.eu/insar-api/archive/download/"
      +:+ fragment +:+ ".zip?id=" +:+ id.
Proof.
  intros fragment.
  assert (∀ x, accepts fragment x = true
               ↔ (∃ a, x = a +:+ ".csv") ∧ (∃ a b, x = a +:+ fragment +:+ b)) as Hiff.
  { intros x. unfold accepts.
    rewrite andb_true_iff, endswith_iff, contains_iff. done. }
  split; [apply Hiff|]. split.
  - intros folder. apply Hiff. split.
    + exists (folder +:+ fragment). by rewrite string_app_assoc.
    + by exists folder, ".csv".
  - unfold fragment, filename_prefix_of, tile_code_of, BASE_URL.
    rewrite !string_app_assoc. reflexivity.
Qed.

(** *** Tile grid orchestrator, further *)

Lemma inject_nat_succ (k : nat) :
  (inject_Z (Z.of_nat (S k)) == inject_Z (Z.of_nat k) + 1)%Q.
Proof. rewrite Nat2Z.inj_succ, <- Z.add_1_r, inject_Z_plus. reflexivity. Qed.

Lemma grid_tasks_total min_e max_e min_n max_n ds :
  grid_tasks min_e max_e min_n max_n ds ≠ [] →
  Z.of_nat (length (grid_tasks min_e max_e min_n max_n ds))
  = ((max_e - min_e + 1) * (max_n - min_n + 1) * Z.of_nat (length ds))%Z.
Proof.
  intros Hne.
  assert (length (grid_tasks min_e max_e min_n max_n ds) ≠ 0%nat) as Hlen
    by (by destruct (grid_tasks _ _ _ _ _)).
  rewrite length_grid_tasks in *.
  assert (0 < max_e - min_e + 1)%Z
    by (destruct (Z.to_nat (max_e - min_e + 1)) eqn:E; [done|lia]).
  assert (0 < max_n - min_n + 1)%Z
    by (destruct (Z.to_nat (max_n - min_n + 1)) eqn:E; [lia|lia]).
  rewrite !Nat2Z.inj_mul, !Z2Nat.id by lia. lia.
Qed.

Lemma grid_tasks_inverted min_e max_e min_n max_n ds :
  (max_e < min_e ∨ max_n < min_n)%Z → grid_tasks min_e max_e min_n max_n ds = [].
Proof.
  intros Hinv. apply length_zero_iff_nil. rewrite length_grid_tasks.
  destruct Hinv; [|rewrite Nat.mul_comm, <- Nat.mul_assoc];
    by replace (Z.to_nat _) with 0%nat by lia.
Qed.

Lemma download_tile_total_tasks e n d year id w :
  total_tasks (download_tile e n d year id w).2 = total_tasks w.
Proof. rewrite download_tile_eq. cbv zeta. by repeat case_match. Qed.

Lemma batch_step_total_tasks total year id e n d c w :
  (0 ≤ c < total)%Z →
  total_tasks (batch_step total year id e n d c w).2 = total_tasks w.
Proof.
  intros Hc. unfold batch_step. run.
  rewrite py_div_ok by lia.
  rewrite progress_ok by (apply fraction_in_range; lia).
  match goal with
  | |- context [download_tile e n d year id ?w0] =>
      pose proof (download_tile_total_tasks e n d year id w0) as Htt;
      destruct (download_tile_frame e n d year id w0) as (b & w1 & Heq & _)
  end.
  rewrite Heq in *. simpl in *. exact Htt.
Qed.

Lemma batch_loop_more total year id ts :
  ∀ c w, (0 ≤ c)%Z → (ts ≠ [] → c + Z.of_nat (length ts) ≤ total)%Z →
  ∃ w', for_in ts (λ '(e, n, d), batch_step total year id e n d) c w
        = (Ret (c + Z.of_nat (length ts))%Z, w')
        ∧ total_tasks w' = total_tasks w
        ∧ ((∀ t, 0 <= lag t)%Q →
           (now w + inject_Z (Z.of_nat (length ts)) * DELAY <= now w')%Q).
Proof.
  induction ts as [|[[e n] d] ts IH]; intros c w Hc Htot.
  - exists w. simpl. rewrite Z.add_0_r. split_and!; [done..|].
    intros _. change (inject_Z (Z.of_nat 0)) with 0%Q. lra.
  - specialize (Htot ltac:(done)). simpl length in *.
    simpl for_in. unfold mbind at 1, M_bind at 1.
    pose proof (batch_step_total_tasks total year id e n d c w) as Htt.
    destruct (batch_step_spec total year id e n d c w) as (w1 & Hstep & _ & Hnow & _);
      [lia|].
    rewrite Hstep in *. simpl in Htt.
    destruct (IH (c + 1)%Z w1) as (w' & -> & Htt' & Htime); [lia..|].
    exists w'. split_and!.
    + do 2 f_equal. lia.
    + rewrite Htt'. apply Htt. lia.
    + intros Hlag. specialize (Htime Hlag). rewrite Hnow in Htime.
      pose proof (Hlag (now w)). pose proof (Hlag (now w + 0 + lag (now w))%Q).
      pose proof (inject_nat_succ (length ts)) as Hs.
      cbv zeta in Htime. unfold DELAY in *. lra.
Qed.

Lemma batch_download_eq min_e max_e min_n max_n disp_choice year id_value w :
  let ts := grid_tasks min_e max_e min_n max_n (displacements_of disp_choice) in
  let total := ((max_e - min_e + 1) * (max_n - min_n + 1)
                * Z.of_nat (length (displacements_of disp_choice)))%Z in
  let w0 := set_ui (λ l, l ++ [Progress 0 (Literal "Starting batch download...")])
              (set_total_tasks total w) in
  let loop := for_in ts (λ '(e, n, d), batch_step total year id_value e n d) 0%Z w0 in
  (ts ≠ [] → 0 + Z.of_nat (length ts) ≤ total)%Z
  ∧ batch_download min_e max_e min_n max_n disp_choice year id_value w
    = (Ret tt,
       set_ui (λ l, l ++ [Progress 1 (Literal "Batch download complete!")]) loop.2).
Proof.
  intros ts total w0 loop.
  assert (ts ≠ [] → 0 + Z.of_nat (length ts) ≤ total)%Z as Htot.
  { intros Hne. unfold ts, total. rewrite grid_tasks_total by exact Hne. lia. }
  split; [exact Htot|].
  unfold batch_download. fold total. run.
  rewrite progress_ok by reflexivity. rewrite for_grid_tasks. fold ts w0 loop.
  destruct (batch_loop_spec total year id_value ts 0%Z w0) as (w1 & Heq & _);
    [lia|exact Htot|].
  fold loop in Heq. rewrite Heq. simpl.
  by rewrite progress_ok by reflexivity.
Qed.

(** A region with an inverted range ([max_e < min_e] or [max_n < min_n],
    which the two independent number inputs allow) downloads nothing: no
    request is sent, no time passes, and the batch still reports first [0]
    and then [1] on the progress bar.  The total it stores in the session
    is the plain product of the two spans and the number of displacements,
    which is then zero, negative or, with both ranges inverted, positive. *)
Theorem batch_download_inverted_region
    (min_e max_e min_n max_n : Z) (disp_choice year id_value : string) (w : world) :
  (max_e < min_e ∨ max_n < min_n)%Z →
  batch_download min_e max_e min_n max_n disp_choice year id_value w
  = (Ret tt,
     set_ui (λ l, l ++ [Progress 1 (Literal "Batch download complete!")])
       (set_ui (λ l, l ++ [Progress 0 (Literal "Starting batch download...")])
          (set_total_tasks
             ((max_e - min_e + 1) * (max_n - min_n + 1)
              * Z.of_nat (length (displacements_of disp_choice)))%Z w))).
Proof.
  intros Hinv.
  destruct (batch_download_eq min_e max_e min_n max_n disp_choice year id_value w)
    as [_ ->].
  by rewrite (grid_tasks_inverted _ _ _ _ _ Hinv).
Qed.

(** After a batch download the session holds the product of the two spans
    and the number of displacements as its total; for a region with
    [min_e <= max_e] and [min_n <= max_n] that is the number of tasks the
    batch ran.  When no operation takes negative time, the batch lasts at
    least [DELAY] seconds per task. *)
Theorem batch_download_total_and_duration
    (min_e max_e min_n max_n : Z) (disp_choice year id_value : string) (w : world) :
  let ts := grid_tasks min_e max_e min_n max_n (displacements_of disp_choice) in
  let w' := (batch_download min_e max_e min_n max_n disp_choice year id_value w).2 in
  total_tasks w'
  = ((max_e - min_e + 1) * (max_n - min_n + 1)
     * Z.of_nat (length (displacements_of disp_choice)))%Z
  ∧ ((min_e ≤ max_e)%Z → (min_n ≤ max_n)%Z →
     total_tasks w' = Z.of_nat (length ts))
  ∧ ((∀ t, 0 <= lag t)%Q →
     (now w + inject_Z (Z.of_nat (length ts)) * DELAY <= now w')%Q).
Proof.
  intros ts w'.
  destruct (batch_download_eq min_e max_e min_n max_n disp_choice year id_value w)
    as [Htot Heq].
  subst w'. rewrite Heq. fold ts in Htot |- *.
  match goal with
  | |- context [for_in ts _ 0%Z ?w0] =>
      destruct (batch_loop_more _ year id_value ts 0%Z w0 ltac:(lia) Htot)
        as (w1 & -> & Htt & Htime)
  end.
  proj. simpl in Htt, Htime |- *. split_and!.
  - exact Htt.
  - intros He Hn. rewrite Htt. unfold ts. rewrite length_grid_tasks.
    rewrite !Nat2Z.inj_mul, !Z2Nat.id by lia. lia.
  - exact Htime.
Qed.

(** *** The single-tile download *)

Lemma fraction_in_range_from_zero (a b : Z) :
  (0 ≤ a ≤ b)%Z → (0 < b)%Z →
  Qle_bool 0 (inject_Z a / inject_Z b) && Qle_bool (inject_Z a / inject_Z b) 1 = true.
Proof.
  intros [Ha Hab] Hpos.
  assert (0 < inject_Z b)%Q as Hb by (rewrite <- (Zlt_Qlt 0); lia).
  apply andb_true_intro. split; apply Qle_bool_iff.
  - apply Qle_shift_div_l; [exact Hb|]. rewrite Qmult_0_l.
    rewrite <- (Zle_Qle 0). lia.
  - apply Qle_shift_div_r; [exact Hb|]. rewrite Qmult_1_l.
    rewrite <- Zle_Qle. lia.
Qed.

Lemma single_step_spec len year id e n i d w :
  (i < len)%nat →
  ∃ w', single_step len year id e n i d w = (Ret tt, w')
        ∧ net_log w' = net_log w ++ [(ArchiveGet (BASE_URL e n d year id), now w)]
        ∧ now w' = (let t := now w + 0 + lag (now w) in t + DELAY + lag t)%Q
        ∧ progress_values (ui w')
          = progress_values (ui w)
            ++ [(inject_Z (Z.of_nat i) / inject_Z (Z.of_nat len))%Q].
Proof.
  intros Hi. unfold single_step. run.
  rewrite py_div_ok by lia.
  rewrite progress_ok by (apply fraction_in_range_from_zero; lia).
  match goal with
  | |- context [download_tile e n d year id ?w0] =>
      destruct (download_tile_frame e n d year id w0) as (b & w1 & -> & Hlog & Hnow & Hui)
  end.
  eexists. split; [reflexivity|]. simpl in *. split_and!.
  - exact Hlog.
  - by rewrite Hnow.
  - rewrite Hui, !progress_values_app. simpl. by rewrite !app_nil_r.
Qed.

Lemma single_loop_spec len year id e n ds :
  ∀ i0 w, (i0 + length ds ≤ len)%nat →
  ∃ w', for_in (enumerate_from i0 ds)
          (λ '(i, d) _, single_step len year id e n i d) tt w = (Ret tt, w')
        ∧ map fst (net_log w')
          = map fst (net_log w) ++ map (λ d, ArchiveGet (BASE_URL e n d year id)) ds
        ∧ progress_values (ui w')
          = progress_values (ui w)
            ++ map (λ k, inject_Z (Z.of_nat (i0 + k)) / inject_Z (Z.of_nat len))%Q
                   (seq 0 (length ds))
        ∧ ((∀ t, 0 <= lag t)%Q →
           (paced DELAY is_archive w → paced DELAY is_archive w')
           ∧ (now w + inject_Z (Z.of_nat (length ds)) * DELAY <= now w')%Q).
Proof.
  induction ds as [|d ds IH]; intros i0 w Hlen.
  - exists w. simpl. rewrite !app_nil_r. split_and!; [done..|].
    intros _. split; [done|]. change (inject_Z (Z.of_nat 0)) with 0%Q. lra.
  - simpl length in *. simpl for_in. unfold mbind at 1, M_bind at 1.
    destruct (single_step_spec len year id e n i0 d w) as (w1 & -> & Hlog & Hnow & Hui);
      [lia|].
    destruct (IH (S i0) w1) as (w' & -> & Hlog' & Hui' & Htime); [lia|].
    exists w'. split_and!.
    + reflexivity.
    + rewrite Hlog', Hlog, map_app. simpl. by rewrite <- app_assoc.
    + rewrite Hui', Hui, <- app_assoc. f_equal. simpl. f_equal.
      * by rewrite Nat.add_0_r.
      * rewrite <- seq_shift, map_map. apply map_ext. intros k.
        do 3 f_equal. lia.
    + intros Hlag. destruct (Htime Hlag) as [Hpaced Hlate].
      pose proof (Hlag (now w)). pose proof (Hlag (now w + 0 + lag (now w))%Q).
      split.
      * intros Hw. apply Hpaced. eapply paced_call; [exact Hw|exact Hlog| |done].
        rewrite Hnow. cbv zeta. unfold DELAY. lra.
      * rewrite Hnow in Hlate. cbv zeta in Hlate.
        pose proof (inject_nat_succ (length ds)) as Hs. unfold DELAY in *. lra.
Qed.

Lemma single_tile_download_eq e n disp_choice year id_value w :
  let ds := displacements_of disp_choice in
  let w0 := set_ui (λ l, l ++ [Progress 0 (Literal "Starting download...")]) w in
  ∃ w1,
    for_in (enumerate_from 0 ds)
      (λ '(i, d) _, single_step (length ds) year id_value e n i d) tt w0
    = (Ret tt, w1)
    ∧ single_tile_download e n disp_choice year id_value w
      = (Ret tt, set_ui (λ l, l ++ [Progress 1 (Literal "Download complete!")]) w1).
Proof.
  intros ds w0.
  destruct (single_loop_spec (length ds) year id_value e n ds 0%nat w0)
    as (w1 & Hloop & _); [simpl; lia|].
  exists w1. split; [exact Hloop|].
  unfold single_tile_download. fold ds. run.
  rewrite progress_ok by reflexivity. fold w0. rewrite Hloop. simpl.
  by rewrite progress_ok by reflexivity.
Qed.

(** The single-tile download never stops early: whatever the network
    answers it returns normally, having sent one request per selected
    displacement, in the order of the selection; the progress fractions it
    emits are [0], then [i / len] before the [i]-th of the [len]
    displacements (counting from zero), then [1], so that the progress
    stays below one while a download is under way and ends at exactly
    one. *)
Theorem single_tile_download_runs_to_the_end
    (e_coord n_coord : Z) (disp_choice year id_value : string) (w : world) :
  let ds := displacements_of disp_choice in
  ∃ w',
    single_tile_download e_coord n_coord disp_choice year id_value w = (Ret tt, w')
    ∧ map fst (net_log w')
      = map fst (net_log w)
        ++ map (λ d, ArchiveGet (BASE_URL e_coord n_coord d year id_value)) ds
    ∧ progress_values (ui w')
      = progress_values (ui w) ++ [0%Q]
        ++ map (λ k, inject_Z (Z.of_nat k) / inject_Z (Z.of_nat (length ds)))%Q
               (seq 0 (length ds))
        ++ [1%Q]
    ∧ last (ui w') = Some (Progress 1 (Literal "Download complete!")).
Proof.
  intros ds.
  destruct (single_tile_download_eq e_coord n_coord disp_choice year id_value w)
    as (w1 & Hloop & ->).
  fold ds in Hloop.
  match type of Hloop with
  | for_in _ _ tt ?w0 = _ =>
      destruct (single_loop_spec (length ds) year id_value e_coord n_coord ds 0%nat w0)
        as (w1' & Hloop' & Hlog & Hui & _); [simpl; lia|]
  end.
  rewrite Hloop in Hloop'. injection Hloop' as <-.
  eexists. split; [reflexivity|]. proj. simpl in Hlog, Hui. split_and!.
  - exact Hlog.
  - rewrite progress_values_app, Hui, progress_values_app. simpl.
    rewrite <- !app_assoc. simpl. do 2 f_equal.
  - apply last_snoc.
Qed.

(** On a clock where no operation takes negative time, the single-tile
    download keeps the archive requests paced (each starts [DELAY] seconds
    or more after the one before, earlier runs included) and lasts at least
    [DELAY] seconds per selected displacement. *)
Theorem single_tile_download_paced
    (e_coord n_coord : Z) (disp_choice year id_value : string) (w : world) :
  (∀ t, 0 <= lag t)%Q →
  let w' := (single_tile_download e_coord n_coord disp_choice year id_value w).2 in
  (paced DELAY is_archive w → paced DELAY is_archive w')
  ∧ (now w + inject_Z (Z.of_nat (length (displacements_of disp_choice))) * DELAY
     <= now w')%Q.
Proof.
  intros Hlag w'. subst w'.
  destruct (single_tile_download_eq e_coord n_coord disp_choice year id_value w)
    as (w1 & Hloop & ->).
  match type of Hloop with
  | for_in _ _ tt ?w0 = _ =>
      destruct (single_loop_spec (length (displacements_of disp_choice))
                  year id_value e_coord n_coord
                  (displacements_of disp_choice) 0%nat w0)
        as (w1' & Hloop' & _ & _ & Htime); [simpl; lia|]
  end.
  rewrite Hloop in Hloop'. injection Hloop' as <-.
  destruct (Htime Hlag) as [Hpaced Hlate]. proj. simpl in *. split.
  - intros Hw. eapply paced_quiet; [..|apply Hpaced]; [done..|].
    by eapply paced_quiet; [..|exact Hw].
  - exact Hlate.
Qed.

(** *** One data row, in detail *)




(** *** The whole pipeline, in detail *)




(** *** What enrichment leaves alone *)





(** *** Enrichment of a well-formed file *)





(** *** Enrichment of files that cannot be processed *)

(** When the input path names neither a file nor a directory, enrichment
    reports [File not found] and returns nothing; no directory is created,
    no file is written and nothing else changes. *)
Theorem enrichment_file_not_found (input : string) (w : world) :
  files w !! input = None → input ∉ dirs w →
  enrich_dataset_with_locations input w
  = (Ret None, set_ui (λ l, l ++ [StError (FileNotFound input)]) w).
Proof.
  intros Hfile Hdir. unfold enrich_dataset_with_locations. run.
  rewrite bool_decide_false by (rewrite Hfile; by intros [? [=]]).
  by rewrite bool_decide_false by done.
Qed.


(** *** Header columns and output path *)

Lemma index_of_first x xs i :
  PyStr.index_of x xs = Some i
  ↔ xs !! i = Some x ∧ ∀ j, (j < i)%nat → xs !! j ≠ Some x.
Proof.
  revert i. induction xs as [|y ys IH]; intros i; simpl.
  - split; [discriminate|]. by intros [? _].
  - destruct (String.eqb_spec y x) as [->|Hne].
    + split.
      * intros [= <-]. split; [done|]. intros j Hj. lia.
      * intros [Hi Hfirst]. destruct i as [|i]; [done|].
        by destruct (Hfirst 0%nat ltac:(lia)).
    + destruct i as [|i].
      * split; [by destruct (PyStr.index_of x ys)|]. intros [[= ?] _]. done.
      * split.
        -- destruct (PyStr.index_of x ys) as [k|]; [|discriminate].
           intros [= <-]. destruct (proj1 (IH k) eq_refl) as [Hk Hfirst].
           split; [done|].
           intros [|j] Hj; simpl; [congruence|]. apply Hfirst. lia.
        -- intros [Hi Hfirst].
           assert (PyStr.index_of x ys = Some i) as ->; [|done].
           apply IH. split; [done|]. intros j Hj.
           apply (Hfirst (S j)). lia.
Qed.

(** The header resolves to the columns [(p, e, n)] exactly when [p], [e]
    and [n] are the positions of the leftmost columns whose names, in
    lower case, are [pid], [easting] and [northing]: letter case is
    ignored and, of several columns of one name, the first is taken. *)
Theorem find_columns_leftmost (header : list string) (p e n : nat) :
  let leftmost (name : string) (i : nat) :=
    PyStr.lower <$> header !! i = Some name
    ∧ ∀ j, (j < i)%nat → PyStr.lower <$> header !! j ≠ Some name in
  find_columns header = (Some p, Some e, Some n)
  ↔ leftmost "pid" p ∧ leftmost "easting" e ∧ leftmost "northing" n.
Proof.
  cbv zeta. unfold find_columns.
  assert (∀ name i,
            PyStr.index_of name (map PyStr.lower header) = Some i
            ↔ PyStr.lower <$> header !! i = Some name
              ∧ ∀ j, (j < i)%nat → PyStr.lower <$> header !! j ≠ Some name) as Hidx.
  { intros name i. rewrite index_of_first.
    change (map PyStr.lower header) with (PyStr.lower <$> header).
    setoid_rewrite list_lookup_fmap. done. }
  rewrite <- !Hidx. split.
  - by intros [= -> -> ->].
  - by intros (-> & -> & ->).
Qed.


(** *** From download to enrichment *)


(** *** A batch of one cell and the single-tile download *)

Lemma grid_tasks_one_cell e n ds :
  grid_tasks e e n n ds = map (λ d, (e, n, d)) ds.
Proof.
  unfold grid_tasks, range.
  replace (e + 1 - e)%Z with 1%Z by lia. replace (n + 1 - n)%Z with 1%Z by lia.
  simpl. rewrite !app_nil_r, !Z.add_0_r. reflexivity.
Qed.

(** A batch download over the single cell [(e, n)] sends the same requests
    in the same order as the single-tile download of that cell: both end
    normally after one request per selected displacement.  They differ in
    the progress they report: the batch counts the task it starts
    ([k / total], reaching one with the last task), the single-tile
    download the tasks it has finished ([i / len], staying below one). *)
Theorem one_cell_batch_as_single_tile (e n : Z) (disp_choice year id_value : string)
    (w : world) :
  let ds := displacements_of disp_choice in
  let batch := batch_download e e n n disp_choice year id_value w in
  let single := single_tile_download e n disp_choice year id_value w in
  batch.1 = Ret tt ∧ single.1 = Ret tt
  ∧ map fst (net_log batch.2) = map fst (net_log single.2)
  ∧ progress_values (ui batch.2)
    = progress_values (ui w) ++ [0%Q]
      ++ map (λ k, inject_Z (1 + Z.of_nat k) / inject_Z (Z.of_nat (length ds)))%Q
             (seq 0 (length ds))
      ++ [1%Q]
  ∧ progress_values (ui single.2)
    = progress_values (ui w) ++ [0%Q]
      ++ map (λ k, inject_Z (Z.of_nat k) / inject_Z (Z.of_nat (length ds)))%Q
             (seq 0 (length ds))
      ++ [1%Q].
Proof.
  intros ds batch single. subst batch single.
  destruct (batch_download_eq e e n n disp_choice year id_value w) as [Htot ->].
  destruct (single_tile_download_eq e n disp_choice year id_value w)
    as (w1 & Hloop & ->).
  fold ds in Hloop, Htot |- *.
  replace ((e - e + 1) * (n - n + 1) * Z.of_nat (length ds))%Z
    with (Z.of_nat (length ds)) in * by lia.
  match type of Hloop with
  | for_in _ _ tt ?w0 = _ =>
      destruct (single_loop_spec (length ds) year id_value e n ds 0%nat w0)
        as (w1' & Hloop' & Hlog1 & Hui1 & _); [simpl; lia|]
  end.
  rewrite Hloop in Hloop'. injection Hloop' as <-.
  match goal with
  | |- context [for_in ?ts ?body 0%Z ?w0] =>
      destruct (batch_loop_spec (Z.of_nat (length ds)) year id_value ts 0%Z w0)
        as (w2 & Hbatch & Hlog2 & Hui2 & _); [lia|exact Htot|];
      rewrite Hbatch
  end.
  rewrite grid_tasks_one_cell in Hlog2, Hui2.
  rewrite length_map in Hui2. rewrite map_map in Hlog2.
  proj. simpl in Hlog1, Hlog2, Hui1, Hui2 |- *. split_and!; [done..| | |].
  - by rewrite Hlog1, Hlog2.
  - rewrite progress_values_app, Hui2, progress_values_app. simpl.
    rewrite <- !app_assoc. simpl. do 2 f_equal.
  - rewrite progress_values_app, Hui1, progress_values_app. simpl.
    rewrite <- !app_assoc. simpl. do 2 f_equal.
Qed.

End Properties.

(** ** The properties on the concrete environment *)


Lemma download_tile_never_raises_witness :
  curl_get (Env := Example.env) 0 (BASE_URL 10 25 "U" DEFAULT_YEAR DEFAULT_ID)
  = inl (LibraryError "Connection timed out")
  ∧ ∃ b w',
      download_tile 10 25 "U" DEFAULT_YEAR DEFAULT_ID Example.fresh = (Ret b, w')
      ∧ b = false
      ∧ download_status w'
        = ErrorDownloading "E10N25" "U" (LibraryError "Connection timed out")
      ∧ files w' = files Example.fresh.
Proof.
  split; [reflexivity|].
  destruct (download_tile_never_raises 10 25 "U" DEFAULT_YEAR DEFAULT_ID Example.fresh)
    as (b & w' & Heq & Hfail).
  exists b, w'. split; [exact Heq|].
  exact (Hfail (LibraryError "Connection timed out") eq_refl).
Defined.


Lemma get_location_name_never_raises_witness :
  (∃ s w', get_location_name (H := Example.env) None (Some 4321000%Z) Example.fresh = (Ret s, w')
           ∧ s = "Unknown location" ∧ w' = Example.fresh)
  ∧ (∃ s w',
       get_location_name (H := Example.env) (Some 3210000%Z) (Some 4321000%Z)
         (set_net_log (λ l, l ++ [(ArchiveGet "", 0%Q)]) Example.fresh)
       = (Ret s, w')
       ∧ s = "Geocoding error").
Proof.
  split.
  - destruct (get_location_name_never_raises (H := Example.env) None (Some 4321000%Z) Example.fresh)
      as (s & w' & Heq & Hnone & _).
    exists s, w'. split; [exact Heq|]. apply Hnone. left. reflexivity.
  - destruct (get_location_name_never_raises (H := Example.env) (Some 3210000%Z) (Some 4321000%Z)
                (set_net_log (λ l, l ++ [(ArchiveGet "", 0%Q)]) Example.fresh))
      as (s & w' & Heq & _ & Hraise).
    exists s, w'. split; [exact Heq|].
    exact (Hraise 3210000%Z 4321000%Z (LibraryError "Read timed out")
             eq_refl eq_refl eq_refl).
Defined.





Lemma calls_are_paced_witness :
  (∀ t, 0 <= lag (Env := Example.env) t)%Q
  ∧ paced DELAY is_archive Example.fresh
  ∧ (let w' := (batch_download 10 11 25 26 "Both" DEFAULT_YEAR DEFAULT_ID
                  Example.fresh).2 in
     paced DELAY is_archive w'
     ∧ ∀ (i n : nat) a b,
         call_times is_archive w' !! i = Some a →
         call_times is_archive w' !! (i + n)%nat = Some b →
         (a + inject_Z (Z.of_nat n) * DELAY <= b)%Q).
Proof.
  assert (∀ t, 0 <= lag (Env := Example.env) t)%Q as Hlag
    by (intros t; simpl; discriminate).
  assert (paced DELAY is_archive Example.fresh) as Hfresh.
  { split; [intros i a b Ha|intros a Ha]; vm_compute in Ha; discriminate. }
  destruct (calls_are_paced (H := Example.env) Hlag) as (_ & Hbatch & _).
  split_and!; [exact Hlag|exact Hfresh|].
  exact (Hbatch 10%Z 11%Z 25%Z 26%Z "Both" DEFAULT_YEAR DEFAULT_ID Example.fresh Hfresh).
Defined.

(** *** Where the code departs from the specification *)




(** *** The further properties on the concrete environment *)

Lemma convert_coordinates_never_raises_witness :
  ∃ r w',
    convert_coordinates (H := Example.env) "4321000.0" "3210000.0" None Example.fresh
    = (Ret r, w')
    ∧ r = (Some 3210000%Z, Some 4321000%Z) ∧ w' = Example.fresh.
Proof.
  destruct (convert_coordinates_never_raises (H := Example.env)
              "4321000.0" "3210000.0" None Example.fresh)
    as (r & w' & Heq & _ & _ & Hok & _).
  exists r, w'. split; [exact Heq|].
  exact (Hok (λ x y, inr (x, y)) 4321000%Z 3210000%Z 4321000%Z 3210000%Z
           eq_refl eq_refl eq_refl eq_refl).
Defined.

Lemma get_location_name_label_witness :
  ∃ s w',
    get_location_name (H := Example.env) (Some 3210000%Z) (Some 4321000%Z)
      Example.fresh = (Ret s, w')
    ∧ s = "Wien, Austria".
Proof.
  destruct (get_location_name_label (H := Example.env) 3210000%Z 4321000%Z
              Example.fresh) as (s & w' & Heq & _ & _ & Hloc).
  exists s, w'. split; [exact Heq|].
  destruct (Hloc Example.vienna eq_refl) as (Hcity & _).
  apply (Hcity "Wien" "Austria"); [reflexivity|reflexivity|discriminate|discriminate].
Defined.


Lemma accepted_entry_names_witness :
  accepts (filename_prefix_of (tile_code_of 10 25) "E" DEFAULT_YEAR)
    ("copy/" +:+ filename_prefix_of (tile_code_of 10 25) "E" DEFAULT_YEAR +:+ ".csv")
  = true.
Proof.
  destruct (accepted_entry_names 10 25 "E" DEFAULT_YEAR DEFAULT_ID "") as (_ & Hin & _).
  exact (Hin "copy/").
Defined.

Lemma batch_download_inverted_region_witness :
  batch_download 12 10 25 26 "Both" DEFAULT_YEAR DEFAULT_ID Example.fresh
  = (Ret tt,
     set_ui (λ l, l ++ [Progress 1 (Literal "Batch download complete!")])
       (set_ui (λ l, l ++ [Progress 0 (Literal "Starting batch download...")])
          (set_total_tasks
             ((10 - 12 + 1) * (26 - 25 + 1)
              * Z.of_nat (length (displacements_of "Both")))%Z Example.fresh))).
Proof.
  apply (batch_download_inverted_region 12 10 25 26 "Both" DEFAULT_YEAR DEFAULT_ID
           Example.fresh).
  left. lia.
Defined.

Lemma batch_download_total_and_duration_witness :
  let w' := (batch_download 10 11 25 26 "Both" DEFAULT_YEAR DEFAULT_ID
               Example.fresh).2 in
  total_tasks w'
  = Z.of_nat (length (grid_tasks 10 11 25 26 (displacements_of "Both")))
  ∧ (now Example.fresh
     + inject_Z (Z.of_nat (length (grid_tasks 10 11 25 26 (displacements_of "Both"))))
       * DELAY <= now w')%Q.
Proof.
  destruct (batch_download_total_and_duration 10 11 25 26 "Both" DEFAULT_YEAR
              DEFAULT_ID Example.fresh) as (_ & Hcount & Htime).
  split.
  - apply Hcount; lia.
  - apply Htime. intros t. simpl. discriminate.
Defined.

Lemma single_tile_download_paced_witness :
  let w' := (single_tile_download 32 31 "Both" DEFAULT_YEAR DEFAULT_ID
               Example.fresh).2 in
  (paced DELAY is_archive Example.fresh → paced DELAY is_archive w')
  ∧ (now Example.fresh + inject_Z (Z.of_nat (length (displacements_of "Both"))) * DELAY
     <= now w')%Q.
Proof.
  apply (single_tile_download_paced (H := Example.env) 32 31 "Both" DEFAULT_YEAR
           DEFAULT_ID Example.fresh).
  intros t. simpl. discriminate.
Defined.






Lemma enrichment_file_not_found_witness :
  enrich_dataset_with_locations "Point_downloads/missing.csv" Example.good
  = (Ret None,
     set_ui (λ l, l ++ [StError (FileNotFound "Point_downloads/missing.csv")])
       Example.good).
Proof.
  apply (enrichment_file_not_found "Point_downloads/missing.csv" Example.good).
  - reflexivity.
  - apply (bool_decide_unpack _). vm_compute. exact I.
Defined.


Lemma find_columns_leftmost_witness :
  (PyStr.lower <$> ["PID"; "pid"; "Easting"; "Northing"] !! 0%nat = Some "pid"
   ∧ ∀ j, (j < 0)%nat →
          PyStr.lower <$> ["PID"; "pid"; "Easting"; "Northing"] !! j ≠ Some "pid")
  ∧ (PyStr.lower <$> ["PID"; "pid"; "Easting"; "Northing"] !! 2%nat = Some "easting"
     ∧ ∀ j, (j < 2)%nat →
            PyStr.lower <$> ["PID"; "pid"; "Easting"; "Northing"] !! j ≠ Some "easting")
  ∧ (PyStr.lower <$> ["PID"; "pid"; "Easting"; "Northing"] !! 3%nat = Some "northing"
     ∧ ∀ j, (j < 3)%nat →
            PyStr.lower <$> ["PID"; "pid"; "Easting"; "Northing"] !! j ≠ Some "northing").
Proof.
  apply (proj1 (find_columns_leftmost ["PID"; "pid"; "Easting"; "Northing"] 0 2 3)).
  reflexivity.
Defined.

